(** * GenAI to OpenInference span translation (agentscope.tracing)

    A shallow embedding of [agentscope/tracing/_processor.py] and of
    [setup_phoenix_tracing] from [agentscope/tracing/_setup.py], with the
    properties of the translation layer proved over it. *)

From stdpp Require Import base option list strings gmap fin_maps.
From Stdlib Require Import ZArith Lia.

Set Warnings "-register-all".

Local Open Scope string_scope.
Local Open Scope Z_scope.

(** ** Python values held by span attributes

    Attribute values are the values an OpenTelemetry span stores: booleans,
    integers, strings and (immutable) sequences of those.  [VNone] is what
    [Mapping.get] answers for a missing key, and a mapping of type
    [Mapping[str, Any]] may also hold it.  Floating-point and bytes values
    are left out of the universe. *)
Inductive value : Type :=
  | VNone
  | VBool (b : bool)
  | VInt (n : Z)
  | VStr (s : string)
  | VTuple (items : list value).

(** Exceptions that can travel through the layer. *)
Inductive py_exn : Type :=
  | TypeError
  | Raised (cls : string).

(** Outcome of a Python call: a returned value or a raised exception. *)
Inductive outcome (A : Type) : Type :=
  | Ok (a : A)
  | Raise (e : py_exn).
Arguments Ok {A} a.
Arguments Raise {A} e.

Definition obind {A B} (m : outcome A) (k : A → outcome B) : outcome B :=
  match m with
  | Ok a => k a
  | Raise e => Raise e
  end.

(** Truth value of an object, as tested by [if x], [not x] and [x or y]. *)
Definition truthy (v : value) : bool :=
  match v with
  | VNone => false
  | VBool b => b
  | VInt n => negb (n =? 0)
  | VStr s => negb (String.eqb s "")
  | VTuple items => match items with [] => false | _ => true end
  end.

(** [x is not None]. *)
Definition is_not_None (v : value) : bool :=
  match v with
  | VNone => false
  | _ => true
  end.

(** The integer a value stands for in arithmetic ([bool] is a subclass of
    [int]). *)
Definition as_int (v : value) : option Z :=
  match v with
  | VBool b => Some (if b then 1 else 0)
  | VInt n => Some n
  | _ => None
  end.

(** The binary [+] operator: integer addition, string and tuple
    concatenation, [TypeError] on every other pair of operands. *)
Definition py_add (x y : value) : outcome value :=
  match as_int x, as_int y with
  | Some a, Some b => Ok (VInt (a + b))
  | _, _ =>
    match x, y with
    | VStr s, VStr t => Ok (VStr (s ++ t))
    | VTuple l, VTuple r => Ok (VTuple (l ++ r))
    | _, _ => Raise TypeError
    end
  end.

(** An attribute mapping, [Mapping[str, Any]]. *)
Abbreviation attrs := (gmap string value).

(** [attrs.get(key)]: the stored value, [None] for a missing key. *)
Definition get (a : attrs) (key : string) : value :=
  default VNone (a !! key).

(** ** Module constants *)

Definition _OPERATION_TO_SPAN_KIND : gmap string string :=
  list_to_map
    [ ("chat", "LLM");
      ("invoke_agent", "AGENT");
      ("execute_tool", "TOOL");
      ("embeddings", "EMBEDDING");
      ("format", "CHAIN");
      ("invoke_generic_function", "CHAIN") ].

Definition _GENAI_OPERATION_NAME := "gen_ai.operation.name".
Definition _GENAI_USAGE_INPUT_TOKENS := "gen_ai.usage.input_tokens".
Definition _GENAI_USAGE_OUTPUT_TOKENS := "gen_ai.usage.output_tokens".
Definition _GENAI_REQUEST_MODEL := "gen_ai.request.model".
Definition _GENAI_PROVIDER_NAME := "gen_ai.system".
Definition _GENAI_AGENT_NAME := "gen_ai.agent.name".
Definition _GENAI_TOOL_NAME := "gen_ai.tool.name".
Definition _GENAI_CONVERSATION_ID := "gen_ai.conversation.id".

Definition _AGENTSCOPE_FUNCTION_INPUT := "agentscope.function.input".
Definition _AGENTSCOPE_FUNCTION_OUTPUT := "agentscope.function.output".

Definition _OI_SPAN_KIND := "openinference.span.kind".
Definition _OI_INPUT_VALUE := "input.value".
Definition _OI_INPUT_MIME_TYPE := "input.mime_type".
Definition _OI_OUTPUT_VALUE := "output.value".
Definition _OI_OUTPUT_MIME_TYPE := "output.mime_type".
Definition _OI_LLM_TOKEN_PROMPT := "llm.token_count.prompt".
Definition _OI_LLM_TOKEN_COMPLETION := "llm.token_count.completion".
Definition _OI_LLM_TOKEN_TOTAL := "llm.token_count.total".
Definition _OI_METADATA_MODEL := "metadata.model".
Definition _OI_METADATA_PROVIDER := "metadata.provider".
Definition _OI_METADATA_AGENT_NAME := "metadata.agent_name".
Definition _OI_METADATA_TOOL_NAME := "metadata.tool_name".
Definition _OI_METADATA_CONVERSATION_ID := "metadata.conversation_id".

(** [_OPERATION_TO_SPAN_KIND.get(op_name, "CHAIN")].  The table is keyed by
    strings, and no value of another type compares equal to a string, so
    every non-string operand gets the default. *)
Definition span_kind_of (op_name : value) : string :=
  match op_name with
  | VStr s => default "CHAIN" (_OPERATION_TO_SPAN_KIND !! s)
  | _ => "CHAIN"
  end.

(** ** [_convert_genai_to_openinference] *)

(** [if v := attrs.get(src): extra[dst] = v]. *)
Definition copy_if_truthy (a : attrs) (src dst : string) (extra : attrs) : attrs :=
  let v := get a src in
  if truthy v then <[dst := v]> extra else extra.

(** [if v := attrs.get(src): extra[dst] = v; extra[mime] = "application/json"]. *)
Definition copy_payload (a : attrs) (src dst mime : string) (extra : attrs) : attrs :=
  let v := get a src in
  if truthy v
  then <[mime := VStr "application/json"]> (<[dst := v]> extra)
  else extra.

Definition _convert_genai_to_openinference (a : attrs) : outcome attrs :=
  let extra : attrs := ∅ in
  (* 1. operation_name -> span_kind *)
  let op_name := get a _GENAI_OPERATION_NAME in
  let extra :=
    if truthy op_name
    then <[_OI_SPAN_KIND := VStr (span_kind_of op_name)]> extra
    else extra in
  (* 2. token counts *)
  let input_tokens := get a _GENAI_USAGE_INPUT_TOKENS in
  let output_tokens := get a _GENAI_USAGE_OUTPUT_TOKENS in
  let extra :=
    if is_not_None input_tokens
    then <[_OI_LLM_TOKEN_PROMPT := input_tokens]> extra
    else extra in
  let extra :=
    if is_not_None output_tokens
    then <[_OI_LLM_TOKEN_COMPLETION := output_tokens]> extra
    else extra in
  obind
    (if is_not_None input_tokens && is_not_None output_tokens
     then obind (py_add input_tokens output_tokens)
                (λ total, Ok (<[_OI_LLM_TOKEN_TOTAL := total]> extra))
     else Ok extra)
    (λ extra,
      (* 3. input/output values from agentscope.function.* *)
      let extra := copy_payload a _AGENTSCOPE_FUNCTION_INPUT
                     _OI_INPUT_VALUE _OI_INPUT_MIME_TYPE extra in
      let extra := copy_payload a _AGENTSCOPE_FUNCTION_OUTPUT
                     _OI_OUTPUT_VALUE _OI_OUTPUT_MIME_TYPE extra in
      (* 4. metadata mappings *)
      let extra := copy_if_truthy a _GENAI_REQUEST_MODEL _OI_METADATA_MODEL extra in
      let extra := copy_if_truthy a _GENAI_PROVIDER_NAME _OI_METADATA_PROVIDER extra in
      let extra := copy_if_truthy a _GENAI_AGENT_NAME _OI_METADATA_AGENT_NAME extra in
      let extra := copy_if_truthy a _GENAI_TOOL_NAME _OI_METADATA_TOOL_NAME extra in
      let extra := copy_if_truthy a _GENAI_CONVERSATION_ID
                     _OI_METADATA_CONVERSATION_ID extra in
      Ok extra).

(** ** Finished spans

    [SpanContext], [SpanKind] and [Status] are immutable values.  The event
    and link collections, the resource and the instrumentation scope are
    heap objects that this layer hands on without reading them: they are
    kept as references, and equality of references is object identity. *)

Record SpanContext : Type := {
  trace_id : Z;
  span_id : Z;
  is_remote : bool
}.

Inductive SpanKind : Type := INTERNAL | SERVER | CLIENT | PRODUCER | CONSUMER.

Inductive StatusCode : Type := UNSET | OK | ERROR.

Record Status : Type := {
  status_code : StatusCode;
  description : option string
}.

Record ref : Type := Ref { address : positive }.

(** The fields of a span recorded by the SDK ([ReadableSpan]).  A finished
    span carries its context. *)
Record ReadableSpanFields : Type := {
  _name : string;
  _context : SpanContext;
  _kind : SpanKind;
  _parent : option SpanContext;
  _start_time : option Z;
  _end_time : option Z;
  _status : Status;
  _attributes : option attrs;
  _events : ref;
  _links : ref;
  _resource : ref;
  _instrumentation_scope : ref;
  _dropped_attributes : Z;
  _dropped_events : Z;
  _dropped_links : Z
}.

(** A [ReadableSpan] object is either a span recorded by the SDK or a
    [_ConvertedSpan] with its two slots. *)
Inductive span : Type :=
  | Recorded (fields : ReadableSpanFields)
  | Converted (_original : span) (_merged_attributes : attrs).

Fixpoint name (s : span) : string :=
  match s with
  | Recorded f => _name f
  | Converted _original _ => name _original
  end.

Fixpoint context (s : span) : SpanContext :=
  match s with
  | Recorded f => _context f
  | Converted _original _ => context _original
  end.

Fixpoint kind (s : span) : SpanKind :=
  match s with
  | Recorded f => _kind f
  | Converted _original _ => kind _original
  end.

Fixpoint parent (s : span) : option SpanContext :=
  match s with
  | Recorded f => _parent f
  | Converted _original _ => parent _original
  end.

Fixpoint start_time (s : span) : option Z :=
  match s with
  | Recorded f => _start_time f
  | Converted _original _ => start_time _original
  end.

Fixpoint end_time (s : span) : option Z :=
  match s with
  | Recorded f => _end_time f
  | Converted _original _ => end_time _original
  end.

Fixpoint status (s : span) : Status :=
  match s with
  | Recorded f => _status f
  | Converted _original _ => status _original
  end.

(** The one accessor a [_ConvertedSpan] answers from its own slot. *)
Definition attributes (s : span) : option attrs :=
  match s with
  | Recorded f => _attributes f
  | Converted _ _merged_attributes => Some _merged_attributes
  end.

Fixpoint events (s : span) : ref :=
  match s with
  | Recorded f => _events f
  | Converted _original _ => events _original
  end.

Fixpoint links (s : span) : ref :=
  match s with
  | Recorded f => _links f
  | Converted _original _ => links _original
  end.

Fixpoint resource (s : span) : ref :=
  match s with
  | Recorded f => _resource f
  | Converted _original _ => resource _original
  end.

Fixpoint instrumentation_scope (s : span) : ref :=
  match s with
  | Recorded f => _instrumentation_scope f
  | Converted _original _ => instrumentation_scope _original
  end.

Fixpoint dropped_attributes (s : span) : Z :=
  match s with
  | Recorded f => _dropped_attributes f
  | Converted _original _ => dropped_attributes _original
  end.

Fixpoint dropped_events (s : span) : Z :=
  match s with
  | Recorded f => _dropped_events f
  | Converted _original _ => dropped_events _original
  end.

Fixpoint dropped_links (s : span) : Z :=
  match s with
  | Recorded f => _dropped_links f
  | Converted _original _ => dropped_links _original
  end.

Fixpoint get_span_context (s : span) : SpanContext :=
  match s with
  | Recorded f => _context f
  | Converted _original _ => get_span_context _original
  end.

(** Truth value of [span.attributes]: [None] and the empty mapping are
    false. *)
Definition mapping_truthy (m : option attrs) : bool :=
  match m with
  | None => false
  | Some a => negb (Nat.eqb (size a) 0)
  end.

(** [_ConvertedSpan.__init__]: [dict(original.attributes)] copies the
    original mapping, and in [{**orig_attrs, **extra_attributes}] the later
    entries overwrite the earlier ones. *)
Definition _ConvertedSpan (original : span) (extra_attributes : attrs) : span :=
  let orig_attrs : attrs :=
    if mapping_truthy (attributes original)
    then default ∅ (attributes original)
    else ∅ in
  Converted original (extra_attributes ∪ orig_attrs).

(** ** [GenAIToOpenInferenceExporter] *)

(** [GenAIToOpenInferenceExporter._convert_span]. *)
Definition _convert_span (s : span) : outcome span :=
  if negb (mapping_truthy (attributes s)) then Ok s
  else
    obind (_convert_genai_to_openinference (default ∅ (attributes s)))
      (λ extra_attrs,
        if negb (mapping_truthy (Some extra_attrs)) then Ok s
        else Ok (_ConvertedSpan s extra_attrs)).

(** [[self._convert_span(span) for span in spans]]: left to right, the
    first exception ends the comprehension. *)
Fixpoint convert_all (spans : list span) : outcome (list span) :=
  match spans with
  | [] => Ok []
  | s :: rest =>
    obind (_convert_span s) (λ c,
    obind (convert_all rest) (λ cs, Ok (c :: cs)))
  end.

Inductive SpanExportResult : Type := SUCCESS | FAILURE.

(** The interface of the wrapped exporter, over its own state. *)
Class SpanExporter (S : Type) : Type := {
  wrapped_export : list span → S → outcome SpanExportResult * S;
  wrapped_shutdown : S → S;
  wrapped_force_flush : Z → S → bool * S
}.

(** One [_logger.info("Exported span: %s (trace_id=%s)", ...)] record. *)
Record log_record : Type := {
  logged_name : string;
  logged_trace_id : Z
}.

(** What a call of the exporter can change: the state of the wrapped
    exporter, the batches handed to it so far, and the module logger. *)
Record world (S : Type) : Type := {
  _wrapped : S;
  handed_over : list (list span);
  _logger : list log_record
}.
Arguments _wrapped {S} w.
Arguments handed_over {S} w.
Arguments _logger {S} w.

(** Computations that read and change the world and may raise. *)
Definition M (S A : Type) : Type := world S → outcome A * world S.

Definition ret {S A} (a : A) : M S A := λ w, (Ok a, w).

Definition bind {S A B} (m : M S A) (k : A → M S B) : M S B :=
  λ w, match m w with
       | (Ok a, w') => k a w'
       | (Raise e, w') => (Raise e, w')
       end.

Definition lift {S A} (o : outcome A) : M S A := λ w, (o, w).

Notation "x <- m ;; k" := (bind m (λ x, k))
  (at level 100, m at next level, right associativity).

(** [self._wrapped.export(converted)]. *)
Definition call_wrapped_export {S} `{SpanExporter S} (converted : list span)
  : M S SpanExportResult :=
  λ w, let '(r, s') := wrapped_export converted (_wrapped w) in
       (r, {| _wrapped := s';
              handed_over := handed_over w ++ [converted];
              _logger := _logger w |}).

(** [_logger.info("Exported span: %s (trace_id=%s)", span.name,
    span.context.trace_id)]. *)
Definition _logger_info {S} (s : span) : M S unit :=
  λ w, (Ok (),
        {| _wrapped := _wrapped w;
           handed_over := handed_over w;
           _logger := _logger w ++
             [ {| logged_name := name s;
                  logged_trace_id := trace_id (context s) |} ] |}).

Fixpoint for_each {S A} (body : A → M S unit) (l : list A) : M S unit :=
  match l with
  | [] => ret ()
  | x :: rest => _ <- body x ;; for_each body rest
  end.

(** [GenAIToOpenInferenceExporter.export]. *)
Definition export {S} `{SpanExporter S} (spans : list span)
  : M S SpanExportResult :=
  converted <- lift (convert_all spans) ;;
  result <- call_wrapped_export converted ;;
  _ <- for_each _logger_info converted ;;
  ret result.

(** [GenAIToOpenInferenceExporter.shutdown]. *)
Definition shutdown {S} `{SpanExporter S} : M S unit :=
  λ w, (Ok (),
        {| _wrapped := wrapped_shutdown (_wrapped w);
           handed_over := handed_over w;
           _logger := _logger w |}).

(** [GenAIToOpenInferenceExporter.force_flush]. *)
Definition force_flush {S} `{SpanExporter S} (timeout_millis : Z) : M S bool :=
  λ w, let '(b, s') := wrapped_force_flush timeout_millis (_wrapped w) in
       (Ok b,
        {| _wrapped := s';
           handed_over := handed_over w;
           _logger := _logger w |}).

(** ** [GenAIToOpenInferenceProcessor] and [setup_phoenix_tracing]

    Construction only builds objects, so the exporters, the delivery
    policies of the SDK and the provider are modelled as the object graph
    the constructors build. *)

Inductive exporter_obj : Type :=
  | OTLPSpanExporter (endpoint : string) (headers : option (gmap string string))
  | GenAIToOpenInferenceExporter (wrapped_exporter : exporter_obj).

Inductive delivery_policy : Type :=
  | SimpleSpanProcessor (span_exporter : exporter_obj)
  | BatchSpanProcessor (span_exporter : exporter_obj) (kwargs : attrs).

Record GenAIToOpenInferenceProcessor : Type := {
  _processor : delivery_policy
}.

(** [GenAIToOpenInferenceProcessor.__init__(exporter, batch=False,
    **processor_kwargs)]; [batch] is [None] when the caller leaves the
    keyword out. *)
Definition GenAIToOpenInferenceProcessor__init__
    (exporter : exporter_obj) (batch : option bool) (processor_kwargs : attrs)
  : GenAIToOpenInferenceProcessor :=
  let batch := default false batch in
  let converting_exporter := GenAIToOpenInferenceExporter exporter in
  if batch
  then {| _processor := BatchSpanProcessor converting_exporter processor_kwargs |}
  else {| _processor := SimpleSpanProcessor converting_exporter |}.

Inductive Resource : Type :=
  | Resource_create (attributes : gmap string string).

Record TracerProvider : Type := {
  provider_resource : Resource;
  _span_processors : list GenAIToOpenInferenceProcessor
}.

Definition add_span_processor (provider : TracerProvider)
    (processor : GenAIToOpenInferenceProcessor) : TracerProvider :=
  {| provider_resource := provider_resource provider;
     _span_processors := _span_processors provider ++ [processor] |}.

(** [project_name or "agentscope"]. *)
Definition project_or_default (project_name : option string) : string :=
  match project_name with
  | Some p => if String.eqb p "" then "agentscope" else p
  | None => "agentscope"
  end.

(** [setup_phoenix_tracing]: the result is the provider the function hands
    to [trace.set_tracer_provider]. *)
Definition setup_phoenix_tracing (endpoint : string) (project_name : option string)
  : TracerProvider :=
  let project := project_or_default project_name in
  let resource := Resource_create {[ "service.name" := project ]} in
  let provider := {| provider_resource := resource; _span_processors := [] |} in
  let exporter :=
    OTLPSpanExporter endpoint (Some {[ "phoenix-project-name" := project ]}) in
  let processor := GenAIToOpenInferenceProcessor__init__ exporter None ∅ in
  add_span_processor provider processor.

(** The two delivery policies of the SDK. *)
Inductive delivery_mode : Type := immediate | buffered.

Definition mode_of (p : delivery_policy) : delivery_mode :=
  match p with
  | SimpleSpanProcessor _ => immediate
  | BatchSpanProcessor _ _ => buffered
  end.

(** The exporter a delivery policy was constructed around. *)
Definition exporter_of (p : delivery_policy) : exporter_obj :=
  match p with
  | SimpleSpanProcessor e => e
  | BatchSpanProcessor e _ => e
  end.

(** ** Reading a mapping built by conditional writes

    [lookup_entry dst k written v earlier] is what key [k] finds after the
    statement [if written: extra[dst] = v], when it found [earlier] before
    it. *)
Definition lookup_entry (dst k : string) (written : bool) (v : value)
    (earlier : option value) : option value :=
  if bool_decide (dst = k) && written then Some v else earlier.

(** The records the logging loop of [export] writes for a batch. *)
Definition records_of (batch : list span) : list log_record :=
  (λ s, {| logged_name := name s; logged_trace_id := trace_id (context s) |})
  <$> batch.

(** The keys the translator reads. *)
Definition source_keys : list string :=
  [ _GENAI_OPERATION_NAME; _GENAI_USAGE_INPUT_TOKENS; _GENAI_USAGE_OUTPUT_TOKENS;
    _AGENTSCOPE_FUNCTION_INPUT; _AGENTSCOPE_FUNCTION_OUTPUT;
    _GENAI_REQUEST_MODEL; _GENAI_PROVIDER_NAME; _GENAI_AGENT_NAME;
    _GENAI_TOOL_NAME; _GENAI_CONVERSATION_ID ].

(** The rules guarded by the truth value of their source, as pairs of the
    key read and a key written: operation name, payload passthrough and
    metadata flattening. *)
Definition truthiness_rules : list (string * string) :=
  [ (_GENAI_OPERATION_NAME, _OI_SPAN_KIND);
    (_AGENTSCOPE_FUNCTION_INPUT, _OI_INPUT_VALUE);
    (_AGENTSCOPE_FUNCTION_INPUT, _OI_INPUT_MIME_TYPE);
    (_AGENTSCOPE_FUNCTION_OUTPUT, _OI_OUTPUT_VALUE);
    (_AGENTSCOPE_FUNCTION_OUTPUT, _OI_OUTPUT_MIME_TYPE);
    (_GENAI_REQUEST_MODEL, _OI_METADATA_MODEL);
    (_GENAI_PROVIDER_NAME, _OI_METADATA_PROVIDER);
    (_GENAI_AGENT_NAME, _OI_METADATA_AGENT_NAME);
    (_GENAI_TOOL_NAME, _OI_METADATA_TOOL_NAME);
    (_GENAI_CONVERSATION_ID, _OI_METADATA_CONVERSATION_ID) ].

(** The one statement of the translator that can raise is
    [input_tokens + output_tokens]; it is reached when neither count is
    [None]. *)
Definition tokens_addable (a : attrs) : Prop :=
  is_not_None (get a _GENAI_USAGE_INPUT_TOKENS)
  && is_not_None (get a _GENAI_USAGE_OUTPUT_TOKENS) = true →
  ∃ total,
    py_add (get a _GENAI_USAGE_INPUT_TOKENS) (get a _GENAI_USAGE_OUTPUT_TOKENS)
    = Ok total.

(** ** Worked examples *)

Definition scenario1 : attrs :=
  {[ _GENAI_OPERATION_NAME := VStr "execute_tool";
     _GENAI_TOOL_NAME := VStr "search";
     _GENAI_USAGE_INPUT_TOKENS := VInt 12;
     _GENAI_USAGE_OUTPUT_TOKENS := VInt 5 ]}.

Definition scenario1_derived : attrs :=
  {[ _OI_SPAN_KIND := VStr "TOOL";
     _OI_LLM_TOKEN_PROMPT := VInt 12;
     _OI_LLM_TOKEN_COMPLETION := VInt 5;
     _OI_LLM_TOKEN_TOTAL := VInt 17;
     _OI_METADATA_TOOL_NAME := VStr "search" ]}.

Definition scenario2 : attrs :=
  {[ _AGENTSCOPE_FUNCTION_INPUT := VStr "{'x': 1}" ]}.

(** A chat call that produced no output tokens. *)
Definition chat_call : attrs :=
  {[ _GENAI_OPERATION_NAME := VStr "chat";
     _GENAI_USAGE_INPUT_TOKENS := VInt 3;
     _GENAI_USAGE_OUTPUT_TOKENS := VInt 0 ]}.

Definition extra_of_scenario2 : attrs :=
  {[ _OI_INPUT_VALUE := VStr "{'x': 1}";
     _OI_INPUT_MIME_TYPE := VStr "application/json" ]}.

Definition chat_call_derived : attrs :=
  {[ _OI_SPAN_KIND := VStr "LLM";
     _OI_LLM_TOKEN_PROMPT := VInt 3;
     _OI_LLM_TOKEN_COMPLETION := VInt 0;
     _OI_LLM_TOKEN_TOTAL := VInt 3 ]}.

(** Token counts recorded as strings. *)
Definition string_counts : attrs :=
  {[ _GENAI_USAGE_INPUT_TOKENS := VStr "12";
     _GENAI_USAGE_OUTPUT_TOKENS := VStr "5" ]}.

(** An integer count next to a string count. *)
Definition mixed_counts : attrs :=
  {[ _GENAI_USAGE_INPUT_TOKENS := VInt 12;
     _GENAI_USAGE_OUTPUT_TOKENS := VStr "5" ]}.

(** A mapping with nothing for the translator to read. *)
Definition untranslatable : attrs :=
  {[ "http.method" := VStr "GET" ]}.

(** An operation name that is the empty string. *)
Definition empty_operation : attrs :=
  {[ _GENAI_OPERATION_NAME := VStr "" ]}.

Definition recorded (nm : string) (a : option attrs) : span :=
  Recorded
    {| _name := nm;
       _context := {| trace_id := 7; span_id := 1; is_remote := false |};
       _kind := INTERNAL;
       _parent := None;
       _start_time := Some 100;
       _end_time := Some 250;
       _status := {| status_code := UNSET; description := None |};
       _attributes := a;
       _events := Ref 1;
       _links := Ref 2;
       _resource := Ref 3;
       _instrumentation_scope := Ref 4;
       _dropped_attributes := 0;
       _dropped_events := 0;
       _dropped_links := 0 |}.

Definition tool_span : span := recorded "tool" (Some scenario1).
Definition plain_span : span := recorded "plain" None.
Definition http_span : span := recorded "http" (Some untranslatable).
Definition mixed_span : span := recorded "chat" (Some mixed_counts).

(** Wrapped exporters to run [export] against: one that accepts every batch
    and counts the spans it was given, one that reports failure. *)
Definition counting_exporter : SpanExporter nat :=
  {| wrapped_export := λ batch n, (Ok SUCCESS, (n + length batch)%nat);
     wrapped_shutdown := λ n, n;
     wrapped_force_flush := λ _ n, (true, n) |}.

Definition failing_exporter : SpanExporter nat :=
  {| wrapped_export := λ batch n, (Ok FAILURE, n);
     wrapped_shutdown := λ n, n;
     wrapped_force_flush := λ _ n, (false, n) |}.

Definition initial_world : world nat :=
  {| _wrapped := 0%nat; handed_over := []; _logger := [] |}.

(** ** Further vocabulary of the translator *)

(** The keys the translator writes. *)
Definition target_keys : list string :=
  [ _OI_SPAN_KIND; _OI_LLM_TOKEN_PROMPT; _OI_LLM_TOKEN_COMPLETION;
    _OI_LLM_TOKEN_TOTAL; _OI_INPUT_VALUE; _OI_INPUT_MIME_TYPE;
    _OI_OUTPUT_VALUE; _OI_OUTPUT_MIME_TYPE; _OI_METADATA_MODEL;
    _OI_METADATA_PROVIDER; _OI_METADATA_AGENT_NAME; _OI_METADATA_TOOL_NAME;
    _OI_METADATA_CONVERSATION_ID ].

(** The assignments [extra[dst] = attrs.get(src)] that copy a source value
    as it is, as pairs of the key read and the key written. *)
Definition copy_rules : list (string * string) :=
  [ (_GENAI_USAGE_INPUT_TOKENS, _OI_LLM_TOKEN_PROMPT);
    (_GENAI_USAGE_OUTPUT_TOKENS, _OI_LLM_TOKEN_COMPLETION);
    (_AGENTSCOPE_FUNCTION_INPUT, _OI_INPUT_VALUE);
    (_AGENTSCOPE_FUNCTION_OUTPUT, _OI_OUTPUT_VALUE);
    (_GENAI_REQUEST_MODEL, _OI_METADATA_MODEL);
    (_GENAI_PROVIDER_NAME, _OI_METADATA_PROVIDER);
    (_GENAI_AGENT_NAME, _OI_METADATA_AGENT_NAME);
    (_GENAI_TOOL_NAME, _OI_METADATA_TOOL_NAME);
    (_GENAI_CONVERSATION_ID, _OI_METADATA_CONVERSATION_ID) ].

(** The span kinds the lookup table and its default can produce. *)
Definition span_kind_labels : list string :=
  [ "LLM"; "AGENT"; "TOOL"; "EMBEDDING"; "CHAIN" ].

(** ** [_ConvertedSpan.to_json]

    [ReadableSpan.to_json] belongs to the SDK; it is a parameter of the
    model, applied to the fields of a recorded span.  A converted span
    hands the call, with the [indent] it was given, to its original. *)
Fixpoint to_json (readable_span_to_json : ReadableSpanFields → option Z → string)
    (s : span) (indent : option Z) : string :=
  match s with
  | Recorded f => readable_span_to_json f indent
  | Converted _original _ => to_json readable_span_to_json _original indent
  end.

(** The recorded span at the bottom of a chain of converted spans. *)
Fixpoint recorded_fields (s : span) : ReadableSpanFields :=
  match s with
  | Recorded f => f
  | Converted _original _ => recorded_fields _original
  end.

(** ** [setup_tracing]

    The provider [trace.get_tracer_provider()] answers is either a
    [TracerProvider] of the SDK, which may hold delivery policies attached
    directly as well as translating processors, or some other provider
    (the proxy of the API when nothing was installed). *)
Inductive span_processor : Type :=
  | PlainPolicy (policy : delivery_policy)
  | Translating (processor : GenAIToOpenInferenceProcessor).

Record SdkTracerProvider : Type := {
  sdk_resource : option Resource;
  sdk_span_processors : list span_processor
}.

Inductive installed_provider : Type :=
  | SdkProvider (provider : SdkTracerProvider)
  | OtherProvider.

(** What a call of [setup_tracing] does to the process: it attaches a
    processor to the provider that is already there, or it hands a new
    provider to [trace.set_tracer_provider]. *)
Inductive setup_effect : Type :=
  | AttachedTo (provider : SdkTracerProvider)
  | SetTracerProvider (provider : SdkTracerProvider).

Definition sdk_add_span_processor (provider : SdkTracerProvider)
    (processor : span_processor) : SdkTracerProvider :=
  {| sdk_resource := sdk_resource provider;
     sdk_span_processors := sdk_span_processors provider ++ [processor] |}.

(** [setup_tracing(endpoint)], given what [trace.get_tracer_provider()]
    answers. *)
Definition setup_tracing (endpoint : string) (tracer_provider : installed_provider)
  : setup_effect :=
  let exporter := OTLPSpanExporter endpoint None in
  let span_processor := PlainPolicy (BatchSpanProcessor exporter ∅) in
  match tracer_provider with
  | SdkProvider provider =>
    AttachedTo (sdk_add_span_processor provider span_processor)
  | OtherProvider =>
    let provider := {| sdk_resource := None; sdk_span_processors := [] |} in
    SetTracerProvider (sdk_add_span_processor provider span_processor)
  end.

(** The provider of [setup_phoenix_tracing], seen as a provider of the
    SDK. *)
Definition as_sdk_provider (provider : TracerProvider) : SdkTracerProvider :=
  {| sdk_resource := Some (provider_resource provider);
     sdk_span_processors := Translating <$> _span_processors provider |}.

(** The provider a setup call leaves behind. *)
Definition provider_after (effect : setup_effect) : SdkTracerProvider :=
  match effect with
  | AttachedTo provider => provider
  | SetTracerProvider provider => provider
  end.

(** The delivery policy inside a processor and the exporter it was built
    around. *)
Definition policy_of (processor : span_processor) : delivery_policy :=
  match processor with
  | PlainPolicy policy => policy
  | Translating processor => _processor processor
  end.

(** ** Lookups in the derived mapping *)

Lemma lookup_entry_unwritten dst k v earlier :
  lookup_entry dst k false v earlier = earlier.
Proof. unfold lookup_entry. by rewrite andb_false_r. Qed.

Lemma lookup_conditional_insert (c : bool) dst v (extra : attrs) k :
  (if c then <[dst := v]> extra else extra) !! k =
  lookup_entry dst k c v (extra !! k).
Proof.
  unfold lookup_entry. destruct c.
  - rewrite lookup_insert, andb_true_r.
    case_decide; [by rewrite bool_decide_eq_true_2|by rewrite bool_decide_eq_false_2].
  - by rewrite andb_false_r.
Qed.

Lemma lookup_copy_if_truthy a src dst (extra : attrs) k :
  copy_if_truthy a src dst extra !! k =
  lookup_entry dst k (truthy (get a src)) (get a src) (extra !! k).
Proof. apply lookup_conditional_insert. Qed.

Lemma lookup_copy_payload a src dst mime (extra : attrs) k :
  copy_payload a src dst mime extra !! k =
  lookup_entry mime k (truthy (get a src)) (VStr "application/json")
    (lookup_entry dst k (truthy (get a src)) (get a src) (extra !! k)).
Proof.
  unfold copy_payload, lookup_entry. destruct (truthy (get a src)).
  - rewrite !lookup_insert, !andb_true_r.
    repeat case_decide;
      repeat (first [rewrite bool_decide_eq_true_2 by done
                    |rewrite bool_decide_eq_false_2 by done]); done.
  - by rewrite !andb_false_r.
Qed.

(** The derived mapping, key by key: the later an entry is written, the
    earlier it is found. *)
Lemma convert_lookup a extra k :
  _convert_genai_to_openinference a = Ok extra →
  let pick src dst := lookup_entry dst k (truthy (get a src)) (get a src) in
  let input_tokens := get a _GENAI_USAGE_INPUT_TOKENS in
  let output_tokens := get a _GENAI_USAGE_OUTPUT_TOKENS in
  let op_name := get a _GENAI_OPERATION_NAME in
  ∃ total,
    (is_not_None input_tokens && is_not_None output_tokens = true →
     py_add input_tokens output_tokens = Ok total) ∧
    extra !! k =
    pick _GENAI_CONVERSATION_ID _OI_METADATA_CONVERSATION_ID
    (pick _GENAI_TOOL_NAME _OI_METADATA_TOOL_NAME
    (pick _GENAI_AGENT_NAME _OI_METADATA_AGENT_NAME
    (pick _GENAI_PROVIDER_NAME _OI_METADATA_PROVIDER
    (pick _GENAI_REQUEST_MODEL _OI_METADATA_MODEL
    (lookup_entry _OI_OUTPUT_MIME_TYPE k
       (truthy (get a _AGENTSCOPE_FUNCTION_OUTPUT)) (VStr "application/json")
    (pick _AGENTSCOPE_FUNCTION_OUTPUT _OI_OUTPUT_VALUE
    (lookup_entry _OI_INPUT_MIME_TYPE k
       (truthy (get a _AGENTSCOPE_FUNCTION_INPUT)) (VStr "application/json")
    (pick _AGENTSCOPE_FUNCTION_INPUT _OI_INPUT_VALUE
    (lookup_entry _OI_LLM_TOKEN_TOTAL k
       (is_not_None input_tokens && is_not_None output_tokens) total
    (lookup_entry _OI_LLM_TOKEN_COMPLETION k
       (is_not_None output_tokens) output_tokens
    (lookup_entry _OI_LLM_TOKEN_PROMPT k
       (is_not_None input_tokens) input_tokens
    (lookup_entry _OI_SPAN_KIND k
       (truthy op_name) (VStr (span_kind_of op_name)) None)))))))))))).
Proof.
  unfold _convert_genai_to_openinference. cbv zeta. intros H.
  destruct (is_not_None (get a _GENAI_USAGE_INPUT_TOKENS)
            && is_not_None (get a _GENAI_USAGE_OUTPUT_TOKENS)) eqn:Hboth.
  - destruct (py_add _ _) as [total|] eqn:Hadd; cbn [obind] in H; [|discriminate].
    injection H as <-. exists total. split; [done|].
    rewrite !lookup_copy_if_truthy, !lookup_copy_payload.
    rewrite (lookup_conditional_insert true), !lookup_conditional_insert.
    by rewrite lookup_empty.
  - cbn [obind] in H. injection H as <-. exists VNone. split; [done|].
    rewrite !lookup_copy_if_truthy, !lookup_copy_payload.
    rewrite !lookup_conditional_insert, lookup_empty.
    by rewrite (lookup_entry_unwritten _OI_LLM_TOKEN_TOTAL).
Qed.

(** Reads the entries of literal keys: the comparison of two literals is
    computed. *)
Ltac read_entries :=
  repeat match goal with
  | |- context [lookup_entry ?d ?k ?c ?v ?e] =>
    let b := eval vm_compute in (bool_decide (d = k)) in
    change (lookup_entry d k c v e) with (if b && c then Some v else e);
    cbn [andb]
  end.

(** Closes an equation between closed terms by evaluating its left-hand
    side. *)
Ltac by_evaluation :=
  match goal with
  | |- _ = ?rhs => vm_cast_no_check (eq_refl rhs)
  end.

Ltac lookup_in_derived H key :=
  let total := fresh "total" in
  let Htotal := fresh "Htotal" in
  destruct (convert_lookup _ _ key H) as (total & Htotal & ->);
  read_entries.

Example scenario1_translated :
  _convert_genai_to_openinference scenario1 = Ok scenario1_derived.
Proof. by_evaluation. Qed.

Example scenario2_translated :
  _convert_genai_to_openinference scenario2 =
  Ok {[ _OI_INPUT_VALUE := VStr "{'x': 1}";
        _OI_INPUT_MIME_TYPE := VStr "application/json" ]}.
Proof. by_evaluation. Qed.

Example string_counts_translated :
  _convert_genai_to_openinference string_counts =
  Ok {[ _OI_LLM_TOKEN_PROMPT := VStr "12";
        _OI_LLM_TOKEN_COMPLETION := VStr "5";
        _OI_LLM_TOKEN_TOTAL := VStr "125" ]}.
Proof. by_evaluation. Qed.

Example mixed_counts_raise :
  _convert_genai_to_openinference mixed_counts = Raise TypeError.
Proof. by_evaluation. Qed.

Example empty_operation_translated :
  _convert_genai_to_openinference empty_operation = Ok ∅.
Proof. by_evaluation. Qed.

(** ** When the translator returns *)

Lemma convert_returns a :
  tokens_addable a → ∃ extra, _convert_genai_to_openinference a = Ok extra.
Proof.
  unfold tokens_addable, _convert_genai_to_openinference. cbv zeta. intros Hadd.
  destruct (is_not_None (get a _GENAI_USAGE_INPUT_TOKENS)
            && is_not_None (get a _GENAI_USAGE_OUTPUT_TOKENS)).
  - destruct Hadd as [total ->]; [done|]. cbn [obind]. eauto.
  - cbn [obind]. eauto.
Qed.

Lemma convert_raises a e :
  _convert_genai_to_openinference a = Raise e →
  e = TypeError ∧ ¬ tokens_addable a.
Proof.
  unfold tokens_addable, _convert_genai_to_openinference. cbv zeta. intros H.
  destruct (is_not_None (get a _GENAI_USAGE_INPUT_TOKENS)
            && is_not_None (get a _GENAI_USAGE_OUTPUT_TOKENS));
    [|cbn [obind] in H; discriminate].
  destruct (py_add _ _) as [total|e'] eqn:Hadd; cbn [obind] in H; [discriminate|].
  injection H as ->. split.
  - unfold py_add in Hadd. repeat case_match; congruence.
  - intros Hok. destruct Hok as [total ?]; [done|congruence].
Qed.

Lemma convert_returns_iff a :
  (∃ extra, _convert_genai_to_openinference a = Ok extra) ↔ tokens_addable a.
Proof.
  split; [|apply convert_returns].
  intros [extra H]. destruct (_convert_genai_to_openinference a) eqn:E.
  - intros Hboth. unfold _convert_genai_to_openinference in E. cbv zeta in E.
    rewrite Hboth in E. destruct (py_add _ _); [eauto|discriminate].
  - discriminate.
Qed.

Lemma get_Some (a : attrs) k v : a !! k = Some v → get a k = v.
Proof. unfold get. by intros ->. Qed.

Lemma get_None (a : attrs) k : a !! k = None → get a k = VNone.
Proof. unfold get. by intros ->. Qed.

Lemma py_add_integers x y m n :
  as_int x = Some m → as_int y = Some n → py_add x y = Ok (VInt (m + n)).
Proof. unfold py_add. by intros -> ->. Qed.

Lemma integer_counts_addable (a : attrs) :
  (∀ v, a !! _GENAI_USAGE_INPUT_TOKENS = Some v → is_Some (as_int v)) →
  (∀ v, a !! _GENAI_USAGE_OUTPUT_TOKENS = Some v → is_Some (as_int v)) →
  tokens_addable a.
Proof.
  intros Hin Hout Hboth. apply andb_true_iff in Hboth as [Hi Ho].
  unfold get in *.
  destruct (a !! _GENAI_USAGE_INPUT_TOKENS) as [vi|]; [|done].
  destruct (a !! _GENAI_USAGE_OUTPUT_TOKENS) as [vo|]; [|done].
  destruct (Hin vi eq_refl) as [m Hm], (Hout vo eq_refl) as [n Hn].
  eauto using py_add_integers.
Qed.

Lemma as_int_not_None v : is_Some (as_int v) → is_not_None v = true.
Proof. destruct v; by intros [??]. Qed.

(** ** Operation-name classification *)

(** C3, the claim as stated fails: an operation name that is present with
    the empty string as its value is not in the lookup table, and the
    derived mapping has no span-kind key at all, where the claim asks for
    [CHAIN]. *)
Lemma span_kind_missing_for_empty_operation_name :
  empty_operation !! _GENAI_OPERATION_NAME = Some (VStr "") ∧
  _OPERATION_TO_SPAN_KIND !! "" = None ∧
  ∃ extra,
    _convert_genai_to_openinference empty_operation = Ok extra ∧
    extra !! _OI_SPAN_KIND = None ∧
    extra !! _OI_SPAN_KIND ≠ Some (VStr "CHAIN").
Proof.
  split; [by vm_compute|]. split; [by vm_compute|].
  exists ∅. split; [apply empty_operation_translated|]. by rewrite lookup_empty.
Qed.

(** C3, amended: in every derived mapping the translator returns, there is
    no span-kind key when the operation-name key is missing or holds a
    false value (empty string, 0, False, None, empty sequence); the span
    kind is [LLM] when the operation name is ["chat"]; and it is [CHAIN]
    when the operation name is a true value that is not in the lookup
    table. *)
Theorem span_kind_classification (a extra : attrs) :
  _convert_genai_to_openinference a = Ok extra →
  (a !! _GENAI_OPERATION_NAME = None → extra !! _OI_SPAN_KIND = None) ∧
  (∀ v, a !! _GENAI_OPERATION_NAME = Some v → truthy v = false →
        extra !! _OI_SPAN_KIND = None) ∧
  (a !! _GENAI_OPERATION_NAME = Some (VStr "chat") →
   extra !! _OI_SPAN_KIND = Some (VStr "LLM")) ∧
  (∀ v, a !! _GENAI_OPERATION_NAME = Some v → truthy v = true →
        (∀ s, v = VStr s → _OPERATION_TO_SPAN_KIND !! s = None) →
        extra !! _OI_SPAN_KIND = Some (VStr "CHAIN")).
Proof.
  intros H. lookup_in_derived H _OI_SPAN_KIND.
  repeat split.
  - intros Hop. by rewrite (get_None _ _ Hop).
  - intros v Hop Hv. by rewrite (get_Some _ _ _ Hop), Hv.
  - intros Hop. by rewrite (get_Some _ _ _ Hop).
  - intros v Hop Hv Htable. rewrite (get_Some _ _ _ Hop), Hv.
    destruct v; try done. cbn [span_kind_of]. by rewrite (Htable s).
Qed.

Lemma span_kind_classification_witness :
  _convert_genai_to_openinference chat_call = Ok chat_call_derived ∧
  chat_call_derived !! _OI_SPAN_KIND = Some (VStr "LLM").
Proof.
  assert (_convert_genai_to_openinference chat_call = Ok chat_call_derived)
    as H by by_evaluation.
  split; [exact H|].
  apply (span_kind_classification chat_call _ H). vm_compute. exact eq_refl.
Defined.

(** ** Token accounting *)

(** C2, the claim as stated fails: with both token counts present as
    strings the total key is emitted, but its value is the concatenation
    of the two strings and not an integer, so it is not their arithmetic
    sum. *)
Lemma token_total_of_string_counts_is_not_a_sum :
  string_counts !! _GENAI_USAGE_INPUT_TOKENS = Some (VStr "12") ∧
  string_counts !! _GENAI_USAGE_OUTPUT_TOKENS = Some (VStr "5") ∧
  ∃ extra,
    _convert_genai_to_openinference string_counts = Ok extra ∧
    extra !! _OI_LLM_TOKEN_TOTAL = Some (VStr "125") ∧
    ∀ n, extra !! _OI_LLM_TOKEN_TOTAL ≠ Some (VInt n).
Proof.
  split; [by vm_compute|]. split; [by vm_compute|].
  eexists. split; [apply string_counts_translated|].
  assert (({[ _OI_LLM_TOKEN_PROMPT := VStr "12";
              _OI_LLM_TOKEN_COMPLETION := VStr "5";
              _OI_LLM_TOKEN_TOTAL := VStr "125" ]} : attrs)
          !! _OI_LLM_TOKEN_TOTAL = Some (VStr "125")) as ->
    by by_evaluation.
  split; [done|]. intros n. discriminate.
Qed.

(** C2, amended: for every source attribute mapping whose input and output
    token counts, where present, are integers, the translator returns a
    derived mapping that holds the total key if and only if both count
    keys are present, its value is then exactly the sum of the two counts,
    and if either key is absent there is no total key. *)
Theorem token_total_iff_both_counts (a : attrs) :
  (∀ v, a !! _GENAI_USAGE_INPUT_TOKENS = Some v → is_Some (as_int v)) →
  (∀ v, a !! _GENAI_USAGE_OUTPUT_TOKENS = Some v → is_Some (as_int v)) →
  ∃ extra,
    _convert_genai_to_openinference a = Ok extra ∧
    (is_Some (extra !! _OI_LLM_TOKEN_TOTAL) ↔
     is_Some (a !! _GENAI_USAGE_INPUT_TOKENS) ∧
     is_Some (a !! _GENAI_USAGE_OUTPUT_TOKENS)) ∧
    (∀ vi vo m n,
       a !! _GENAI_USAGE_INPUT_TOKENS = Some vi →
       a !! _GENAI_USAGE_OUTPUT_TOKENS = Some vo →
       as_int vi = Some m → as_int vo = Some n →
       extra !! _OI_LLM_TOKEN_TOTAL = Some (VInt (m + n))) ∧
    (a !! _GENAI_USAGE_INPUT_TOKENS = None ∨
     a !! _GENAI_USAGE_OUTPUT_TOKENS = None →
     extra !! _OI_LLM_TOKEN_TOTAL = None).
Proof.
  intros Hin Hout.
  destruct (convert_returns a (integer_counts_addable a Hin Hout)) as [extra H].
  exists extra. split; [done|].
  lookup_in_derived H _OI_LLM_TOKEN_TOTAL.
  destruct (a !! _GENAI_USAGE_INPUT_TOKENS) as [vi|] eqn:Ei;
    [rewrite (get_Some _ _ _ Ei) in *|rewrite (get_None _ _ Ei) in *];
    (destruct (a !! _GENAI_USAGE_OUTPUT_TOKENS) as [vo|] eqn:Eo;
     [rewrite (get_Some _ _ _ Eo) in *|rewrite (get_None _ _ Eo) in *]).
  - destruct (Hin vi eq_refl) as [m Hm], (Hout vo eq_refl) as [n Hn].
    rewrite !as_int_not_None in * by eauto. cbn [andb] in *.
    rewrite (py_add_integers _ _ _ _ Hm Hn) in Htotal.
    specialize (Htotal eq_refl). injection Htotal as <-.
    split; [split; eauto|]. split.
    + intros ???? [= <-] [= <-] ??. repeat f_equal; congruence.
    + intros [?|?]; discriminate.
  - rewrite andb_false_r. split; [split|split].
    + by intros [??].
    + by intros [_ [??]].
    + intros; discriminate.
    + done.
  - cbn [is_not_None andb]. split; [split|split].
    + by intros [??].
    + by intros [[??] _].
    + intros; discriminate.
    + done.
  - cbn [is_not_None andb]. split; [split|split].
    + by intros [??].
    + by intros [[??] _].
    + intros; discriminate.
    + done.
Qed.

Lemma token_total_iff_both_counts_witness :
  ∃ extra,
    _convert_genai_to_openinference scenario1 = Ok extra ∧
    extra !! _OI_LLM_TOKEN_TOTAL = Some (VInt (12 + 5)).
Proof.
  destruct (token_total_iff_both_counts scenario1) as (extra & H & _ & Hsum & _).
  - intros v. vm_compute. intros [= <-]. eexists. reflexivity.
  - intros v. vm_compute. intros [= <-]. eexists. reflexivity.
  - exists extra. split; [exact H|].
    apply (Hsum (VInt 12) (VInt 5)); vm_compute; exact eq_refl.
Defined.

(** ** Presence tests of the rules *)

(** C10: in every derived mapping the translator returns, a token count
    that is not [None] is copied to its target key, 0 included, and enters
    the total when the other count is not [None] either; the rules on the
    operation name, the payloads and the metadata write nothing when their
    source key holds a false value, and the empty string, 0 and the empty
    sequence are false values. *)
Theorem presence_by_none_for_tokens_by_truth_elsewhere (a extra : attrs) :
  _convert_genai_to_openinference a = Ok extra →
  (∀ v, a !! _GENAI_USAGE_INPUT_TOKENS = Some v → v ≠ VNone →
        extra !! _OI_LLM_TOKEN_PROMPT = Some v) ∧
  (∀ v, a !! _GENAI_USAGE_OUTPUT_TOKENS = Some v → v ≠ VNone →
        extra !! _OI_LLM_TOKEN_COMPLETION = Some v) ∧
  (a !! _GENAI_USAGE_INPUT_TOKENS = Some (VInt 0) →
   extra !! _OI_LLM_TOKEN_PROMPT = Some (VInt 0) ∧
   ∀ n, a !! _GENAI_USAGE_OUTPUT_TOKENS = Some (VInt n) →
        extra !! _OI_LLM_TOKEN_TOTAL = Some (VInt (0 + n))) ∧
  (a !! _GENAI_USAGE_OUTPUT_TOKENS = Some (VInt 0) →
   extra !! _OI_LLM_TOKEN_COMPLETION = Some (VInt 0) ∧
   ∀ m, a !! _GENAI_USAGE_INPUT_TOKENS = Some (VInt m) →
        extra !! _OI_LLM_TOKEN_TOTAL = Some (VInt (m + 0))) ∧
  (∀ src dst v, (src, dst) ∈ truthiness_rules →
        a !! src = Some v → truthy v = false → extra !! dst = None) ∧
  truthy (VStr "") = false ∧ truthy (VInt 0) = false ∧
  truthy (VTuple []) = false.
Proof.
  intros H.
  assert (∀ v, a !! _GENAI_USAGE_INPUT_TOKENS = Some v → v ≠ VNone →
               extra !! _OI_LLM_TOKEN_PROMPT = Some v) as Hprompt.
  { intros v Hv Hnn. lookup_in_derived H _OI_LLM_TOKEN_PROMPT.
    rewrite (get_Some _ _ _ Hv). by destruct v. }
  assert (∀ v, a !! _GENAI_USAGE_OUTPUT_TOKENS = Some v → v ≠ VNone →
               extra !! _OI_LLM_TOKEN_COMPLETION = Some v) as Hcompletion.
  { intros v Hv Hnn. lookup_in_derived H _OI_LLM_TOKEN_COMPLETION.
    rewrite (get_Some _ _ _ Hv). by destruct v. }
  assert (∀ m n, a !! _GENAI_USAGE_INPUT_TOKENS = Some (VInt m) →
                 a !! _GENAI_USAGE_OUTPUT_TOKENS = Some (VInt n) →
                 extra !! _OI_LLM_TOKEN_TOTAL = Some (VInt (m + n))) as Htot.
  { intros m n Hm Hn. lookup_in_derived H _OI_LLM_TOKEN_TOTAL.
    rewrite (get_Some _ _ _ Hm), (get_Some _ _ _ Hn) in *.
    cbn [is_not_None andb] in *. specialize (Htotal eq_refl).
    cbn in Htotal. by injection Htotal as <-. }
  split; [done|]. split; [done|].
  split; [intros H0; split; [by apply Hprompt|eauto]|].
  split; [intros H0; split; [by apply Hcompletion|eauto]|].
  split; [|done].
  intros src dst v Hrule Hv Hfalse. unfold truthiness_rules in Hrule.
  repeat (apply elem_of_cons in Hrule as [[= -> ->]|Hrule]);
    [..|by apply elem_of_nil in Hrule];
    match goal with |- _ !! ?k = _ => lookup_in_derived H k end;
    by rewrite ?(get_Some _ _ _ Hv), ?Hfalse.
Qed.

Lemma presence_by_none_for_tokens_by_truth_elsewhere_witness :
  _convert_genai_to_openinference chat_call = Ok chat_call_derived ∧
  chat_call_derived !! _OI_LLM_TOKEN_COMPLETION = Some (VInt 0) ∧
  chat_call_derived !! _OI_LLM_TOKEN_TOTAL = Some (VInt (3 + 0)).
Proof.
  assert (_convert_genai_to_openinference chat_call = Ok chat_call_derived)
    as H by by_evaluation.
  split; [exact H|].
  destruct (presence_by_none_for_tokens_by_truth_elsewhere _ _ H)
    as (_ & _ & _ & Hzero & _).
  destruct Hzero as [Hcopy Htotal]; [vm_compute; exact eq_refl|].
  split; [exact Hcopy|]. apply Htotal. vm_compute. exact eq_refl.
Defined.

(** ** Stability of the translation *)

Lemma derived_has_no_source_key (a extra : attrs) k :
  _convert_genai_to_openinference a = Ok extra →
  k ∈ source_keys → extra !! k = None.
Proof.
  intros H Hk. unfold source_keys in Hk.
  repeat (apply elem_of_cons in Hk as [->|Hk]);
    [..|by apply elem_of_nil in Hk];
    match goal with |- _ !! ?k = _ => lookup_in_derived H k end;
    reflexivity.
Qed.

(** The translator reads its argument through the source keys only. *)
Lemma convert_reads_source_keys (a b : attrs) :
  (∀ k, k ∈ source_keys → get a k = get b k) →
  _convert_genai_to_openinference a = _convert_genai_to_openinference b.
Proof.
  intros Hsame.
  assert (∀ k, In k source_keys → get a k = get b k) as Hin
    by (intros k Hk; by apply Hsame, list_elem_of_In).
  unfold _convert_genai_to_openinference, copy_payload, copy_if_truthy.
  cbv zeta.
  rewrite !(Hin _GENAI_OPERATION_NAME), !(Hin _GENAI_USAGE_INPUT_TOKENS),
    !(Hin _GENAI_USAGE_OUTPUT_TOKENS), !(Hin _AGENTSCOPE_FUNCTION_INPUT),
    !(Hin _AGENTSCOPE_FUNCTION_OUTPUT), !(Hin _GENAI_REQUEST_MODEL),
    !(Hin _GENAI_PROVIDER_NAME), !(Hin _GENAI_AGENT_NAME),
    !(Hin _GENAI_TOOL_NAME), !(Hin _GENAI_CONVERSATION_ID)
    by (cbn [In source_keys]; tauto).
  reflexivity.
Qed.

Lemma falsy_mapping_is_empty (m : option attrs) :
  mapping_truthy m = false → default ∅ m = ∅.
Proof.
  destruct m as [a|]; [|done]. cbn [mapping_truthy default].
  intros Hsize. apply negb_false_iff, Nat.eqb_eq in Hsize.
  by apply map_size_empty_iff.
Qed.

(** The merged mapping of a view is the derived mapping laid over the
    original one, the empty mapping standing in for missing attributes. *)
Lemma merged_attributes_of_view (original : span) (extra : attrs) :
  attributes (_ConvertedSpan original extra) =
  Some (extra ∪ default ∅ (attributes original)).
Proof.
  unfold _ConvertedSpan. cbn [attributes].
  destruct (mapping_truthy (attributes original)) eqn:E; [done|].
  by rewrite (falsy_mapping_is_empty _ E).
Qed.

(** C9: when translating [a] returns the derived mapping [extra],
    translating [a] overlaid with [extra], which is the merged mapping of
    the view built from them, returns [extra] again; no key of [extra] is
    a key the translator reads. *)
Theorem translation_is_idempotent (a extra : attrs) :
  _convert_genai_to_openinference a = Ok extra →
  _convert_genai_to_openinference (extra ∪ a) = Ok extra ∧
  (∀ s, attributes s = Some a →
        ∃ merged, attributes (_ConvertedSpan s extra) = Some merged ∧
                  _convert_genai_to_openinference merged = Ok extra) ∧
  (∀ k, k ∈ source_keys → extra !! k = None).
Proof.
  intros H.
  assert (_convert_genai_to_openinference (extra ∪ a) = Ok extra) as Hagain.
  { rewrite <- H. apply convert_reads_source_keys. intros k Hk.
    unfold get. by rewrite lookup_union_r by eauto using derived_has_no_source_key. }
  split; [done|]. split; [|eauto using derived_has_no_source_key].
  intros s Hs. exists (extra ∪ a). split; [|done].
  by rewrite merged_attributes_of_view, Hs.
Qed.

Lemma translation_is_idempotent_witness :
  _convert_genai_to_openinference scenario1 = Ok scenario1_derived ∧
  _convert_genai_to_openinference (scenario1_derived ∪ scenario1)
  = Ok scenario1_derived.
Proof.
  assert (_convert_genai_to_openinference scenario1 = Ok scenario1_derived)
    as H by by_evaluation.
  split; [exact H|].
  apply (translation_is_idempotent scenario1 _ H).
Defined.

(** ** The converted span *)

(** C7: the attributes of a view hold a key exactly when the original
    mapping or the derived mapping holds it; a key of the derived mapping
    has the derived value; every other key has the value of the original
    mapping. *)
Theorem merged_attributes_favor_translation (original : span) (extra : attrs) :
  ∃ merged,
    attributes (_ConvertedSpan original extra) = Some merged ∧
    let orig_attrs := default ∅ (attributes original) in
    (∀ k, is_Some (merged !! k) ↔
          is_Some (orig_attrs !! k) ∨ is_Some (extra !! k)) ∧
    (∀ k v, extra !! k = Some v → merged !! k = Some v) ∧
    (∀ k, extra !! k = None → merged !! k = orig_attrs !! k).
Proof.
  eexists. split; [apply merged_attributes_of_view|]. cbv zeta.
  split; [|split].
  - intros k. rewrite lookup_union_is_Some. tauto.
  - intros k v Hk. by apply lookup_union_Some_l.
  - intros k Hk. by apply lookup_union_r.
Qed.

(** A view is a new object: it is never the span it wraps. *)
Lemma converted_span_is_not_original (original : span) (extra : attrs) :
  _ConvertedSpan original extra ≠ original.
Proof.
  unfold _ConvertedSpan. generalize (extra ∪
    (if mapping_truthy (attributes original)
     then default ∅ (attributes original) else ∅)).
  induction original as [f|o IH m]; intros merged Heq; [discriminate|].
  injection Heq as Ho _. by eapply IH.
Qed.

(** C8: every accessor of a view other than [attributes] returns what the
    same accessor of the original span returns; for the event and link
    collections, the resource and the instrumentation scope that is the
    same reference, so the same object. *)
Theorem view_delegates_to_original (original : span) (extra_attributes : attrs) :
  let view := _ConvertedSpan original extra_attributes in
  name view = name original ∧
  context view = context original ∧
  kind view = kind original ∧
  parent view = parent original ∧
  start_time view = start_time original ∧
  end_time view = end_time original ∧
  status view = status original ∧
  events view = events original ∧
  address (events view) = address (events original) ∧
  links view = links original ∧
  address (links view) = address (links original) ∧
  resource view = resource original ∧
  instrumentation_scope view = instrumentation_scope original ∧
  dropped_attributes view = dropped_attributes original ∧
  dropped_events view = dropped_events original ∧
  dropped_links view = dropped_links original ∧
  get_span_context view = get_span_context original.
Proof. repeat split. Qed.

(** ** The exporter *)

Lemma convert_span_cases (s c : span) :
  _convert_span s = Ok c →
  c = s ∨
  ∃ a extra, attributes s = Some a ∧
             _convert_genai_to_openinference a = Ok extra ∧
             extra ≠ ∅ ∧
             c = _ConvertedSpan s extra.
Proof.
  unfold _convert_span.
  destruct (negb (mapping_truthy (attributes s))) eqn:Htruthy;
    [intros [= <-]; by left|].
  destruct (attributes s) as [a|] eqn:Ha; [|done].
  change (default ∅ (Some a)) with a.
  destruct (_convert_genai_to_openinference a) as [extra|] eqn:Hc;
    cbn [obind]; [|discriminate].
  destruct (negb (mapping_truthy (Some extra))) eqn:Hextra;
    intros [= <-]; [by left|right].
  exists a, extra. repeat split; try done.
  intros ->. cbn [mapping_truthy] in Hextra. by rewrite map_size_empty in Hextra.
Qed.

Lemma convert_span_returns (s : span) :
  (∀ a, attributes s = Some a → tokens_addable a) →
  ∃ c, _convert_span s = Ok c.
Proof.
  intros Hadd. unfold _convert_span.
  destruct (negb (mapping_truthy (attributes s))); [eauto|].
  destruct (attributes s) as [a|].
  - change (default ∅ (Some a)) with a.
    destruct (convert_returns a (Hadd a eq_refl)) as [extra ->]. cbn [obind].
    destruct (negb (mapping_truthy (Some extra))); eauto.
  - change (default ∅ None) with (∅ : attrs).
    destruct (convert_returns ∅) as [extra ->]; [by intros ?|].
    cbn [obind]. destruct (negb (mapping_truthy (Some extra))); eauto.
Qed.

Lemma convert_all_Forall2 (spans converted : list span) :
  convert_all spans = Ok converted ↔
  Forall2 (λ s c, _convert_span s = Ok c) spans converted.
Proof.
  revert converted. induction spans as [|s rest IH]; intros converted.
  - cbn [convert_all]. split.
    + intros [= <-]. constructor.
    + by intros ->%Forall2_nil_inv_l.
  - cbn [convert_all]. split.
    + destruct (_convert_span s) as [c|] eqn:Hs; cbn [obind]; [|discriminate].
      destruct (convert_all rest) as [cs|] eqn:Hrest; cbn [obind]; [|discriminate].
      intros [= <-]. constructor; [done|]. by apply IH.
    + intros (c & cs & Hs & Hrest & ->)%Forall2_cons_inv_l.
      rewrite Hs. cbn [obind]. apply IH in Hrest. by rewrite Hrest.
Qed.

Lemma convert_all_returns (spans : list span) :
  (∀ s a, s ∈ spans → attributes s = Some a → tokens_addable a) →
  ∃ converted, convert_all spans = Ok converted.
Proof.
  induction spans as [|s rest IH]; intros Hadd; cbn [convert_all]; [eauto|].
  destruct (convert_span_returns s) as [c ->].
  { intros a. apply Hadd. by left. }
  destruct IH as [cs ->].
  { intros s' a Hs'. apply Hadd. by right. }
  cbn [obind]. eauto.
Qed.

Lemma for_each_logger_info {S} (batch : list span) (w : world S) :
  for_each _logger_info batch w =
  (Ok (), {| _wrapped := _wrapped w;
             handed_over := handed_over w;
             _logger := _logger w ++ records_of batch |}).
Proof.
  revert w. induction batch as [|s rest IH]; intros w.
  - cbn. rewrite app_nil_r. by destruct w.
  - cbn [for_each]. unfold bind at 1. unfold _logger_info at 1.
    rewrite IH. cbn. by rewrite <- app_assoc.
Qed.

(** [export] as one case analysis: a raising comprehension leaves the
    world as it was; otherwise the converted batch is handed over once,
    and the log is written when the wrapped exporter returns. *)
Lemma export_unfold {S} `{SpanExporter S} (spans : list span) (w : world S) :
  export spans w =
  match convert_all spans with
  | Raise e => (Raise e, w)
  | Ok converted =>
    let '(r, s') := wrapped_export converted (_wrapped w) in
    (r, {| _wrapped := s';
           handed_over := handed_over w ++ [converted];
           _logger := match r with
                      | Ok _ => _logger w ++ records_of converted
                      | Raise _ => _logger w
                      end |})
  end.
Proof.
  unfold export, bind, lift, call_wrapped_export, ret.
  destruct (convert_all spans) as [converted|e]; [|done].
  destruct (wrapped_export converted (_wrapped w)) as [[r|e] s']; [|done].
  by rewrite for_each_logger_info.
Qed.

(** Token counts of the spans of a literal batch are integers. *)
Ltac batch_addable Hs Ha :=
  apply integer_counts_addable;
  (let v := fresh "v" in
   let Hv := fresh "Hv" in
   intros v Hv;
   repeat (apply elem_of_cons in Hs as [->|Hs]);
   try (by apply elem_of_nil in Hs);
   cbn [attributes recorded _attributes tool_span plain_span] in Ha;
   try discriminate;
   injection Ha as <-; vm_compute in Hv; injection Hv as <-;
   by eexists).

(** C4, the claim as stated fails: for a batch holding a span whose input
    token count is an integer and whose output token count is a string,
    the translation raises [TypeError]; [export] raises it without calling
    the wrapped exporter, although the wrapped exporter answers [SUCCESS]
    to every batch. *)
Lemma export_raises_before_wrapped_exporter_is_called :
  @export nat counting_exporter [mixed_span] initial_world
  = (Raise TypeError, initial_world) ∧
  ∀ batch n, (@wrapped_export nat counting_exporter batch n).1 = Ok SUCCESS.
Proof. split; [by_evaluation|done]. Qed.

(** C4, amended: for every batch in which the two token counts of each
    span can be added whenever neither is [None] (always so for integer
    counts), [export] hands the converted batch to the wrapped exporter
    exactly once and its outcome is exactly the outcome of that call,
    success, failure or exception alike; the state of the wrapped exporter
    is the one that call left. *)
Theorem export_returns_wrapped_result {S} `{SpanExporter S}
    (spans : list span) (w : world S) :
  (∀ s a, s ∈ spans → attributes s = Some a → tokens_addable a) →
  ∃ converted,
    convert_all spans = Ok converted ∧
    handed_over (export spans w).2 = (handed_over w ++ [converted])%list ∧
    (export spans w).1 = (wrapped_export converted (_wrapped w)).1 ∧
    _wrapped (export spans w).2 = (wrapped_export converted (_wrapped w)).2.
Proof.
  intros Hadd. destruct (convert_all_returns spans Hadd) as [converted Hc].
  exists converted. split; [done|].
  rewrite export_unfold, Hc.
  by destruct (wrapped_export converted (_wrapped w)) as [r s'].
Qed.

Lemma export_returns_wrapped_result_witness :
  (@export nat failing_exporter [tool_span; plain_span] initial_world).1
  = Ok FAILURE.
Proof.
  destruct (@export_returns_wrapped_result nat failing_exporter
              [tool_span; plain_span] initial_world)
    as (converted & _ & _ & Hresult & _).
  - intros s a Hs Ha. batch_addable Hs Ha.
  - rewrite Hresult. reflexivity.
Defined.

(** C5: [export] hands at most one batch to the wrapped exporter, and
    exactly one when no translation raises; a batch handed over has the
    length of the input batch, and at every index it holds the input span
    of that index, either itself or wrapped in the view built from it and
    from the derived mapping of its attributes. *)
Theorem export_preserves_order {S} `{SpanExporter S}
    (spans : list span) (w : world S) :
  ∃ batches,
    handed_over (export spans w).2 = (handed_over w ++ batches)%list ∧
    (length batches ≤ 1)%nat ∧
    ((∀ s a, s ∈ spans → attributes s = Some a → tokens_addable a) →
     length batches = 1%nat) ∧
    ∀ out, out ∈ batches →
      length out = length spans ∧
      ∀ i s, spans !! i = Some s →
        out !! i = Some s ∨
        ∃ a extra, attributes s = Some a ∧
                   _convert_genai_to_openinference a = Ok extra ∧
                   out !! i = Some (_ConvertedSpan s extra).
Proof.
  rewrite export_unfold.
  destruct (convert_all spans) as [converted|e] eqn:Hc.
  - exists [converted].
    destruct (wrapped_export converted (_wrapped w)) as [r s'].
    cbn [snd handed_over length]. split; [done|]. split; [lia|].
    split; [done|].
    intros out ->%list_elem_of_singleton.
    apply convert_all_Forall2 in Hc. split.
    + symmetry. by eapply Forall2_length.
    + intros i s Hi.
      destruct (Forall2_lookup_l _ _ _ _ _ Hc Hi) as (c & Hout & Hconv).
      destruct (convert_span_cases _ _ Hconv)
        as [->|(a & extra & Ha & Hextra & _ & ->)]; eauto 10.
  - exists []. cbn [snd length]. rewrite app_nil_r. split; [done|].
    split; [lia|]. split.
    + intros Hadd. destruct (convert_all_returns spans Hadd); congruence.
    + by intros out ?%elem_of_nil.
Qed.

Lemma export_preserves_order_witness :
  ∃ out,
    handed_over
      (@export nat counting_exporter [tool_span; plain_span] initial_world).2
    = [out] ∧
    length out = 2%nat.
Proof.
  destruct (@export_preserves_order nat counting_exporter
              [tool_span; plain_span] initial_world)
    as (batches & Hb & _ & Hone & Hout).
  assert (length batches = 1%nat) as Hlen.
  { clear Hb Hout. apply Hone. intros s a Hs Ha. batch_addable Hs Ha. }
  destruct batches as [|out [|]]; try discriminate Hlen.
  exists out. split; [exact Hb|]. apply Hout. by left.
Defined.

(** C6: a span without attributes ([None] or the empty mapping), and a
    span whose attributes the translator maps to the empty mapping, is
    returned by [_convert_span] as it is, and [export] places it, itself
    and unwrapped, in the batch it hands to the wrapped exporter: for
    every batch that holds the span at some index and in which the token
    counts of every span can be added, one batch of the same length is
    handed over and it holds that very span at that index; and whenever a
    batch is handed over at all, the span sits in it at its index. *)
Theorem spans_without_translation_pass_through {S} `{SpanExporter S}
    (s : span) :
  (attributes s = None ∨ attributes s = Some ∅ ∨
   ∃ a, attributes s = Some a ∧ _convert_genai_to_openinference a = Ok ∅) →
  _convert_span s = Ok s ∧
  (∀ (spans : list span) (i : nat) (w : world S),
     spans !! i = Some s →
     (∀ s' a, s' ∈ spans → attributes s' = Some a → tokens_addable a) →
     ∃ out,
       handed_over (export spans w).2 = (handed_over w ++ [out])%list ∧
       length out = length spans ∧
       out !! i = Some s ∧
       (∀ extra, out !! i ≠ Some (_ConvertedSpan s extra))) ∧
  (∀ (spans : list span) (i : nat) (w : world S) (out : list span),
     spans !! i = Some s →
     handed_over (export spans w).2 = (handed_over w ++ [out])%list →
     out !! i = Some s).
Proof.
  intros Hs.
  assert (_convert_span s = Ok s) as Hpass.
  { unfold _convert_span. destruct Hs as [->|[->|(a & -> & Ha)]]; [done|done|].
    destruct (negb (mapping_truthy (Some a))); [done|].
    change (default ∅ (Some a)) with a. by rewrite Ha. }
  assert (∀ spans converted i, convert_all spans = Ok converted →
            spans !! i = Some s → converted !! i = Some s) as Hplace.
  { intros spans converted i Hc%convert_all_Forall2 Hi.
    destruct (Forall2_lookup_l _ _ _ _ _ Hc Hi) as (c & Hout & Hconv).
    congruence. }
  split; [done|]. split.
  - intros spans i w Hi Hadd.
    destruct (convert_all_returns spans Hadd) as [converted Hc].
    exists converted. rewrite export_unfold, Hc.
    destruct (wrapped_export converted (_wrapped w)) as [r s'].
    cbn [snd handed_over]. split; [done|]. split; [|split].
    + apply convert_all_Forall2 in Hc. symmetry. by eapply Forall2_length.
    + by eapply Hplace.
    + intros extra. rewrite (Hplace _ _ _ Hc Hi). intros [= Heq].
      by eapply converted_span_is_not_original.
  - intros spans i w out Hi. rewrite export_unfold.
    destruct (convert_all spans) as [converted|e] eqn:Hc.
    + destruct (wrapped_export converted (_wrapped w)) as [r s'].
      cbn [snd handed_over]. intros [= <-]%app_inv_head. by eapply Hplace.
    + cbn [snd]. intros Hgrow. apply (f_equal length) in Hgrow.
      rewrite length_app in Hgrow. cbn [length] in Hgrow. lia.
Qed.

Lemma spans_without_translation_pass_through_witness :
  _convert_span http_span = Ok http_span ∧
  ∃ out,
    handed_over
      (@export nat counting_exporter [tool_span; http_span; plain_span]
         initial_world).2
    = [out] ∧
    length out = 3%nat ∧
    out !! 1%nat = Some http_span.
Proof.
  assert (∀ s' a, s' ∈ [tool_span; http_span; plain_span] →
                  attributes s' = Some a → tokens_addable a) as Hadd.
  { intros s' a Hs' Ha. apply integer_counts_addable; intros v Hv;
      repeat (apply elem_of_cons in Hs' as [->|Hs']);
      try (by apply elem_of_nil in Hs');
      cbn [attributes recorded _attributes tool_span http_span plain_span]
        in Ha;
      try discriminate Ha;
      injection Ha as <-; vm_compute in Hv;
      first [discriminate Hv | injection Hv as <-; by eexists]. }
  destruct (@spans_without_translation_pass_through nat counting_exporter
              http_span) as (Hconvert & Hplaced & _).
  - right. right. exists untranslatable. split; [reflexivity|by_evaluation].
  - split; [exact Hconvert|].
    destruct (Hplaced [tool_span; http_span; plain_span] 1%nat initial_world
                eq_refl Hadd) as (out & Hout & Hlen & Hat & _).
    exists out. split; [exact Hout|]. split; [exact Hlen|exact Hat].
Defined.

(** ** Pipeline setup *)

(** The policy [GenAIToOpenInferenceProcessor] constructs follows its
    [batch] argument, and [batch] left out means the immediate policy. *)
Lemma processor_policy_follows_batch exporter batch kwargs :
  mode_of (_processor (GenAIToOpenInferenceProcessor__init__ exporter batch kwargs))
  = (if default false batch then buffered else immediate) ∧
  exporter_of (_processor (GenAIToOpenInferenceProcessor__init__ exporter batch kwargs))
  = GenAIToOpenInferenceExporter exporter.
Proof. by destruct batch as [[|]|]. Qed.

(** C1, the claim as stated fails: for the endpoint of a local collector
    and the project label ["demo"], the one processor that
    [setup_phoenix_tracing] attaches holds the immediate policy, not the
    buffered one. *)
Lemma setup_phoenix_tracing_is_not_buffered :
  ∃ processor,
    _span_processors
      (setup_phoenix_tracing "http://localhost:6006/v1/traces" (Some "demo"))
    = [processor] ∧
    mode_of (_processor processor) = immediate ∧
    mode_of (_processor processor) ≠ buffered.
Proof. eexists. split; [reflexivity|]. by split. Qed.

(** C1, amended: for every endpoint and project label,
    [setup_phoenix_tracing] attaches exactly one processor to the provider
    it installs; its delivery policy is the immediate policy
    ([SimpleSpanProcessor]), constructed around the translating exporter
    that wraps the network exporter carrying the project label in the
    [phoenix-project-name] header. *)
Theorem setup_phoenix_tracing_wraps_sink_immediate
    (endpoint : string) (project_name : option string) :
  let project := project_or_default project_name in
  let provider := setup_phoenix_tracing endpoint project_name in
  _span_processors provider =
    [ {| _processor :=
           SimpleSpanProcessor
             (GenAIToOpenInferenceExporter
                (OTLPSpanExporter endpoint
                   (Some {[ "phoenix-project-name" := project ]}))) |} ] ∧
  (∀ processor, processor ∈ _span_processors provider →
                mode_of (_processor processor) = immediate) ∧
  provider_resource provider = Resource_create {[ "service.name" := project ]}.
Proof.
  cbv zeta. split; [reflexivity|]. split; [|reflexivity].
  by intros processor ->%list_elem_of_singleton.
Qed.

(** ** More on the translator *)

Lemma lookup_entry_other dst k c v earlier :
  dst ≠ k → lookup_entry dst k c v earlier = earlier.
Proof. intros Hne. unfold lookup_entry. by rewrite bool_decide_eq_false_2. Qed.

Lemma get_not_None (a : attrs) k v :
  get a k = v → v ≠ VNone → a !! k = Some v.
Proof. unfold get. destruct (a !! k); cbn; congruence. Qed.

Lemma truthy_not_None v : truthy v = true → v ≠ VNone.
Proof. by destruct v. Qed.

Lemma is_not_None_true v : is_not_None v = true ↔ v ≠ VNone.
Proof. destruct v; cbn; split; congruence. Qed.

(** Membership of a literal key in a literal list of keys. *)
Ltac literal_member :=
  apply list_elem_of_In; cbn [In source_keys target_keys];
  repeat first [left; reflexivity | right].

Lemma derived_lookup_outside_targets (a extra : attrs) (k : string) :
  _convert_genai_to_openinference a = Ok extra →
  k ∉ target_keys → extra !! k = None.
Proof.
  intros H Hnot.
  destruct (convert_lookup a extra k H) as (total & _ & ->). cbv zeta.
  by rewrite !lookup_entry_other by (intros <-; apply Hnot; literal_member).
Qed.

(** X1: the derived mapping holds none but the thirteen target keys. *)
Theorem translator_writes_target_keys_only (a extra : attrs) (k : string) :
  _convert_genai_to_openinference a = Ok extra →
  is_Some (extra !! k) → k ∈ target_keys.
Proof.
  intros H Hk. destruct (decide (k ∈ target_keys)) as [|Hnot]; [done|].
  exfalso. rewrite (derived_lookup_outside_targets a extra k H Hnot) in Hk.
  by destruct Hk.
Qed.

Lemma translator_writes_target_keys_only_witness :
  _OI_METADATA_TOOL_NAME ∈ target_keys.
Proof.
  apply (translator_writes_target_keys_only scenario1 scenario1_derived).
  - by_evaluation.
  - exists (VStr "search"). by_evaluation.
Defined.

(** X2: a key outside the ten source keys has no influence: writing it
    to the source mapping, or deleting it, leaves the outcome of the
    translation as it was. *)
Theorem translator_ignores_foreign_keys (a : attrs) (k : string) (v : value) :
  k ∉ source_keys →
  _convert_genai_to_openinference (<[k := v]> a)
  = _convert_genai_to_openinference a ∧
  _convert_genai_to_openinference (delete k a)
  = _convert_genai_to_openinference a.
Proof.
  intros Hforeign. split; apply convert_reads_source_keys; intros k' Hk';
    unfold get.
  - rewrite lookup_insert_ne; [done|]. by intros ->.
  - rewrite lookup_delete_ne; [done|]. by intros ->.
Qed.

Lemma translator_ignores_foreign_keys_witness :
  _convert_genai_to_openinference (<["http.method" := VStr "GET"]> scenario1)
  = Ok scenario1_derived.
Proof.
  destruct (translator_ignores_foreign_keys scenario1 "http.method" (VStr "GET"))
    as [-> _].
  - intros Hin. apply list_elem_of_In in Hin. cbn [In source_keys] in Hin.
    repeat (destruct Hin as [Hin|Hin];
            [vm_compute in Hin; discriminate Hin|]).
    exact Hin.
  - by_evaluation.
Defined.

(** X4: the translator raises exactly when neither token count is [None]
    and [+] rejects the pair, and what it raises is that [TypeError]. *)
Theorem translator_raises_exactly (a : attrs) (e : py_exn) :
  _convert_genai_to_openinference a = Raise e ↔
  e = TypeError ∧
  get a _GENAI_USAGE_INPUT_TOKENS ≠ VNone ∧
  get a _GENAI_USAGE_OUTPUT_TOKENS ≠ VNone ∧
  py_add (get a _GENAI_USAGE_INPUT_TOKENS) (get a _GENAI_USAGE_OUTPUT_TOKENS)
  = Raise TypeError.
Proof.
  split.
  - intros H. destruct (convert_raises a e H) as [-> Hnot]. split; [done|].
    unfold _convert_genai_to_openinference in H. cbv zeta in H.
    destruct (is_not_None (get a _GENAI_USAGE_INPUT_TOKENS)) eqn:Hi;
      destruct (is_not_None (get a _GENAI_USAGE_OUTPUT_TOKENS)) eqn:Ho;
      cbn [andb obind] in H; try discriminate.
    apply is_not_None_true in Hi, Ho.
    destruct (py_add _ _) as [t|e'] eqn:Hadd; cbn [obind] in H; [discriminate|].
    by injection H as ->.
  - intros (-> & Hi & Ho & Hadd).
    apply is_not_None_true in Hi, Ho.
    unfold _convert_genai_to_openinference. cbv zeta.
    by rewrite Hi, Ho, Hadd.
Qed.

(** A rule guarded by the truth of its source writes its key exactly when
    the source is true. *)
Lemma truthiness_rule_written (a extra : attrs) src dst :
  _convert_genai_to_openinference a = Ok extra →
  (src, dst) ∈ truthiness_rules →
  is_Some (extra !! dst) ↔ truthy (get a src) = true.
Proof.
  intros H Hrule. unfold truthiness_rules in Hrule.
  repeat (apply elem_of_cons in Hrule as [[= -> ->]|Hrule]);
    [..|by apply elem_of_nil in Hrule];
    match goal with |- is_Some (_ !! ?k) ↔ _ => lookup_in_derived H k end;
    match goal with |- context [truthy ?v] => destruct (truthy v) end;
    split; try done; by intros [??].
Qed.

(** X3: the derived mapping is empty exactly when both token counts are
    [None] or missing and every other source key is missing or holds a
    false value; a mapping without any source key, the empty one
    included, is such a mapping. *)
Theorem nothing_to_translate (a : attrs) :
  (_convert_genai_to_openinference a = Ok ∅ ↔
   get a _GENAI_USAGE_INPUT_TOKENS = VNone ∧
   get a _GENAI_USAGE_OUTPUT_TOKENS = VNone ∧
   ∀ src dst, (src, dst) ∈ truthiness_rules → truthy (get a src) = false) ∧
  ((∀ k, k ∈ source_keys → a !! k = None) →
   _convert_genai_to_openinference a = Ok ∅).
Proof.
  assert (get a _GENAI_USAGE_INPUT_TOKENS = VNone →
          get a _GENAI_USAGE_OUTPUT_TOKENS = VNone →
          (∀ src dst, (src, dst) ∈ truthiness_rules →
                      truthy (get a src) = false) →
          _convert_genai_to_openinference a = Ok ∅) as Hempty.
  { intros Hi Ho Hfalse.
    destruct (convert_returns a) as [extra H].
    { intros Hboth. by rewrite Hi in Hboth. }
    rewrite H. f_equal. apply map_eq. intros k. rewrite lookup_empty.
    destruct (convert_lookup a extra k H) as (total & _ & ->). cbv zeta.
    rewrite Hi, Ho. cbn [is_not_None andb].
    rewrite !(Hfalse _GENAI_OPERATION_NAME _OI_SPAN_KIND),
      !(Hfalse _AGENTSCOPE_FUNCTION_INPUT _OI_INPUT_VALUE),
      !(Hfalse _AGENTSCOPE_FUNCTION_OUTPUT _OI_OUTPUT_VALUE),
      !(Hfalse _GENAI_REQUEST_MODEL _OI_METADATA_MODEL),
      !(Hfalse _GENAI_PROVIDER_NAME _OI_METADATA_PROVIDER),
      !(Hfalse _GENAI_AGENT_NAME _OI_METADATA_AGENT_NAME),
      !(Hfalse _GENAI_TOOL_NAME _OI_METADATA_TOOL_NAME),
      !(Hfalse _GENAI_CONVERSATION_ID _OI_METADATA_CONVERSATION_ID)
      by (apply list_elem_of_In; cbn [In truthiness_rules]; tauto).
    by rewrite !lookup_entry_unwritten. }
  split; [split|].
  - intros H.
    assert (get a _GENAI_USAGE_INPUT_TOKENS = VNone) as Hi.
    { assert ((∅ : attrs) !! _OI_LLM_TOKEN_PROMPT = None) as Hl
        by apply lookup_empty.
      revert Hl. lookup_in_derived H _OI_LLM_TOKEN_PROMPT.
      by destruct (get a _GENAI_USAGE_INPUT_TOKENS). }
    assert (get a _GENAI_USAGE_OUTPUT_TOKENS = VNone) as Ho.
    { assert ((∅ : attrs) !! _OI_LLM_TOKEN_COMPLETION = None) as Hl
        by apply lookup_empty.
      revert Hl. lookup_in_derived H _OI_LLM_TOKEN_COMPLETION.
      by destruct (get a _GENAI_USAGE_OUTPUT_TOKENS). }
    split; [done|]. split; [done|].
    intros src dst Hrule.
    destruct (truthy (get a src)) eqn:Htruthy; [exfalso|done].
    apply (truthiness_rule_written a ∅ src dst H Hrule) in Htruthy.
    rewrite lookup_empty in Htruthy. by destruct Htruthy.
  - intros (Hi & Ho & Hfalse). by apply Hempty.
  - intros Hmissing.
    assert (∀ k, In k source_keys → get a k = VNone) as Hget.
    { intros k Hk. apply get_None, Hmissing. by apply list_elem_of_In. }
    apply Hempty.
    + apply Hget. cbn [In source_keys]. tauto.
    + apply Hget. cbn [In source_keys]. tauto.
    + intros src dst Hrule. unfold truthiness_rules in Hrule.
      repeat (apply elem_of_cons in Hrule as [[= -> ->]|Hrule]);
        [..|by apply elem_of_nil in Hrule];
        by rewrite Hget by (cbn [In source_keys]; tauto).
Qed.

Lemma nothing_to_translate_witness :
  _convert_genai_to_openinference untranslatable = Ok ∅.
Proof.
  apply (nothing_to_translate untranslatable).
  intros k Hk. apply list_elem_of_In in Hk. cbn [In source_keys] in Hk.
  repeat (destruct Hk as [<-|Hk]; [by_evaluation|]). destruct Hk.
Defined.

(** X5: in a derived mapping the total count is present exactly when the
    prompt count and the completion count are both present, and it is
    then what [+] makes of the two. *)
Theorem token_triad_is_consistent (a extra : attrs) :
  _convert_genai_to_openinference a = Ok extra →
  (is_Some (extra !! _OI_LLM_TOKEN_TOTAL) ↔
   is_Some (extra !! _OI_LLM_TOKEN_PROMPT) ∧
   is_Some (extra !! _OI_LLM_TOKEN_COMPLETION)) ∧
  (∀ p c, extra !! _OI_LLM_TOKEN_PROMPT = Some p →
          extra !! _OI_LLM_TOKEN_COMPLETION = Some c →
          ∃ t, py_add p c = Ok t ∧ extra !! _OI_LLM_TOKEN_TOTAL = Some t).
Proof.
  intros H.
  destruct (convert_lookup a extra _OI_LLM_TOKEN_TOTAL H) as (t & Ht & Htotal).
  destruct (convert_lookup a extra _OI_LLM_TOKEN_PROMPT H) as (? & _ & Hprompt).
  destruct (convert_lookup a extra _OI_LLM_TOKEN_COMPLETION H)
    as (? & _ & Hcompletion).
  rewrite Htotal, Hprompt, Hcompletion. clear Htotal Hprompt Hcompletion.
  cbv zeta in *. read_entries.
  destruct (is_not_None (get a _GENAI_USAGE_INPUT_TOKENS));
    destruct (is_not_None (get a _GENAI_USAGE_OUTPUT_TOKENS));
    cbn [andb] in *.
  - split; [split; eauto|]. intros p c [= <-] [= <-]. eauto.
  - split; [split; [by intros [??]|by intros [_ [??]]]|]. intros; discriminate.
  - split; [split; [by intros [??]|by intros [[??] _]]|]. intros; discriminate.
  - split; [split; [by intros [??]|by intros [[??] _]]|]. intros; discriminate.
Qed.

Lemma token_triad_is_consistent_witness :
  is_Some (chat_call_derived !! _OI_LLM_TOKEN_TOTAL) ↔
  is_Some (chat_call_derived !! _OI_LLM_TOKEN_PROMPT) ∧
  is_Some (chat_call_derived !! _OI_LLM_TOKEN_COMPLETION).
Proof.
  apply (token_triad_is_consistent chat_call chat_call_derived). by_evaluation.
Defined.

(** X6: a payload value and its MIME type are written together or not at
    all, and the MIME type written is always ["application/json"]. *)
Theorem payload_carries_its_mime_type (a extra : attrs) :
  _convert_genai_to_openinference a = Ok extra →
  (is_Some (extra !! _OI_INPUT_VALUE) ↔
   extra !! _OI_INPUT_MIME_TYPE = Some (VStr "application/json")) ∧
  (is_Some (extra !! _OI_OUTPUT_VALUE) ↔
   extra !! _OI_OUTPUT_MIME_TYPE = Some (VStr "application/json")) ∧
  (∀ v, extra !! _OI_INPUT_MIME_TYPE = Some v → v = VStr "application/json") ∧
  (∀ v, extra !! _OI_OUTPUT_MIME_TYPE = Some v → v = VStr "application/json").
Proof.
  intros H.
  destruct (convert_lookup a extra _OI_INPUT_VALUE H) as (? & _ & ->).
  destruct (convert_lookup a extra _OI_INPUT_MIME_TYPE H) as (? & _ & ->).
  destruct (convert_lookup a extra _OI_OUTPUT_VALUE H) as (? & _ & ->).
  destruct (convert_lookup a extra _OI_OUTPUT_MIME_TYPE H) as (? & _ & ->).
  cbv zeta. read_entries.
  destruct (truthy (get a _AGENTSCOPE_FUNCTION_INPUT));
    destruct (truthy (get a _AGENTSCOPE_FUNCTION_OUTPUT));
    repeat split; try done; try (by intros [??]); try congruence; eauto.
Qed.

Lemma payload_carries_its_mime_type_witness :
  extra_of_scenario2 !! _OI_INPUT_MIME_TYPE = Some (VStr "application/json").
Proof.
  apply (payload_carries_its_mime_type scenario2 extra_of_scenario2).
  - by_evaluation.
  - exists (VStr "{'x': 1}"). by_evaluation.
Defined.

Lemma span_kind_of_label (v : value) : span_kind_of v ∈ span_kind_labels.
Proof.
  assert ("CHAIN" ∈ span_kind_labels) as Hchain
    by (apply list_elem_of_In; cbn; tauto).
  destruct v as [| | |s|]; try done. cbn [span_kind_of].
  destruct (_OPERATION_TO_SPAN_KIND !! s) as [label|] eqn:Hs; [|done].
  cbn [default]. unfold _OPERATION_TO_SPAN_KIND in Hs.
  apply elem_of_list_to_map_2, list_elem_of_In in Hs. cbn [In] in Hs.
  apply list_elem_of_In. cbn [In span_kind_labels].
  repeat (destruct Hs as [[= <- <-]|Hs]; [tauto|]). destruct Hs.
Qed.

(** X7: every operation name of the lookup table gets the span kind the
    table gives it, and whatever the operation name is, a span kind that
    is written is one of LLM, AGENT, TOOL, EMBEDDING and CHAIN. *)
Theorem span_kind_follows_table (a extra : attrs) :
  _convert_genai_to_openinference a = Ok extra →
  (∀ op label, _OPERATION_TO_SPAN_KIND !! op = Some label →
               a !! _GENAI_OPERATION_NAME = Some (VStr op) →
               extra !! _OI_SPAN_KIND = Some (VStr label)) ∧
  (∀ v, extra !! _OI_SPAN_KIND = Some v →
        ∃ label, v = VStr label ∧ label ∈ span_kind_labels).
Proof.
  intros H. lookup_in_derived H _OI_SPAN_KIND. split.
  - intros op label Hop Ha. rewrite (get_Some _ _ _ Ha).
    assert (truthy (VStr op) = true) as ->.
    { destruct op; [|done]. exfalso. revert Hop. by vm_compute. }
    cbn [span_kind_of]. by rewrite Hop.
  - intros v. destruct (truthy _); [|done]. intros [= <-].
    eexists. split; [done|]. apply span_kind_of_label.
Qed.

Lemma span_kind_follows_table_witness :
  scenario1_derived !! _OI_SPAN_KIND = Some (VStr "TOOL").
Proof.
  destruct (span_kind_follows_table scenario1 scenario1_derived) as [Htable _].
  - by_evaluation.
  - apply (Htable "execute_tool" "TOOL"); by_evaluation.
Defined.

(** X8: a value found under the target key of a copying rule is the value
    the source mapping holds under the source key of that rule. *)
Theorem copied_values_come_from_source (a extra : attrs) src dst v :
  _convert_genai_to_openinference a = Ok extra →
  (src, dst) ∈ copy_rules →
  extra !! dst = Some v → a !! src = Some v.
Proof.
  intros H Hrule. unfold copy_rules in Hrule.
  repeat (apply elem_of_cons in Hrule as [[= -> ->]|Hrule]);
    [..|by apply elem_of_nil in Hrule];
    match goal with |- _ !! ?k = _ → _ => lookup_in_derived H k end;
    match goal with
    | |- context [truthy ?x] =>
      destruct (truthy x) eqn:Hx; [|done]; intros [= <-];
      by eapply get_not_None, truthy_not_None
    | |- context [is_not_None ?x] =>
      destruct (is_not_None x) eqn:Hx; [|done]; intros [= <-];
      by eapply get_not_None, is_not_None_true
    end.
Qed.

Lemma copied_values_come_from_source_witness :
  scenario1 !! _GENAI_TOOL_NAME = Some (VStr "search").
Proof.
  apply (copied_values_come_from_source scenario1 scenario1_derived
           _GENAI_TOOL_NAME _OI_METADATA_TOOL_NAME).
  - by_evaluation.
  - apply list_elem_of_In. cbn [In copy_rules]. tauto.
  - by_evaluation.
Defined.

(** ** More on converted spans *)

Lemma retranslation_of_overlay (a extra : attrs) :
  _convert_genai_to_openinference a = Ok extra →
  _convert_genai_to_openinference (extra ∪ a) = Ok extra.
Proof.
  intros H. rewrite <- H. apply convert_reads_source_keys. intros k Hk.
  unfold get. by rewrite lookup_union_r by eauto using derived_has_no_source_key.
Qed.

Lemma nonempty_mapping_truthy (m : attrs) :
  m ≠ ∅ → mapping_truthy (Some m) = true.
Proof.
  intros Hm. cbn [mapping_truthy]. apply negb_true_iff, Nat.eqb_neq.
  by rewrite map_size_empty_iff.
Qed.

(** X9: conversion of a span never drops an attribute and never changes
    the value of a key that is not a target key; in particular the ten
    source keys keep their values. *)
Theorem conversion_keeps_original_attributes (s c : span) (a : attrs) :
  _convert_span s = Ok c →
  attributes s = Some a →
  ∃ m, attributes c = Some m ∧
       (∀ k, is_Some (a !! k) → is_Some (m !! k)) ∧
       (∀ k, k ∉ target_keys → m !! k = a !! k) ∧
       (∀ k, k ∈ source_keys → m !! k = a !! k).
Proof.
  intros Hc Ha.
  destruct (convert_span_cases _ _ Hc)
    as [->|(a' & extra & Ha' & Hextra & _ & ->)].
  { exists a. by repeat split. }
  assert (a' = a) as -> by congruence.
  exists (extra ∪ a). split; [by rewrite merged_attributes_of_view, Ha|].
  split; [|split].
  - intros k Hk. rewrite lookup_union_is_Some. by right.
  - intros k Hk. apply lookup_union_r.
    eauto using derived_lookup_outside_targets.
  - intros k Hk. apply lookup_union_r.
    eauto using derived_has_no_source_key.
Qed.

Lemma conversion_keeps_original_attributes_witness :
  ∃ m, attributes (_ConvertedSpan tool_span scenario1_derived) = Some m ∧
       m !! _GENAI_TOOL_NAME = scenario1 !! _GENAI_TOOL_NAME.
Proof.
  destruct (conversion_keeps_original_attributes tool_span
              (_ConvertedSpan tool_span scenario1_derived) scenario1)
    as (m & Hm & _ & _ & Hsource).
  - by_evaluation.
  - reflexivity.
  - exists m. split; [exact Hm|]. apply Hsource. literal_member.
Defined.

(** X10: converting a converted span once more changes nothing a reader
    can see: the second conversion returns, and its result has the same
    attributes and the same recorded span underneath. *)
Theorem conversion_is_stable (s c : span) :
  _convert_span s = Ok c →
  ∃ c', _convert_span c = Ok c' ∧
        attributes c' = attributes c ∧
        recorded_fields c' = recorded_fields c.
Proof.
  intros Hc.
  destruct (convert_span_cases _ _ Hc)
    as [->|(a & extra & Ha & Hextra & Hne & ->)]; [eauto|].
  assert (attributes (_ConvertedSpan s extra) = Some (extra ∪ a)) as Hview
    by (by rewrite merged_attributes_of_view, Ha).
  assert (extra ∪ a ≠ ∅) as Hunion.
  { by intros ?%map_positive_l. }
  exists (_ConvertedSpan (_ConvertedSpan s extra) extra). split; [|split].
  - unfold _convert_span at 1. rewrite Hview.
    rewrite (nonempty_mapping_truthy _ Hunion). cbn [negb].
    change (default ∅ (Some (extra ∪ a))) with (extra ∪ a).
    rewrite (retranslation_of_overlay _ _ Hextra). cbn [obind].
    by rewrite (nonempty_mapping_truthy _ Hne).
  - rewrite merged_attributes_of_view, Hview.
    change (default ∅ (Some (extra ∪ a))) with (extra ∪ a).
    by rewrite (assoc_L (∪)), (idemp_L (∪)).
  - done.
Qed.

Lemma conversion_is_stable_witness :
  ∃ c', _convert_span (_ConvertedSpan tool_span scenario1_derived) = Ok c' ∧
        attributes c' = attributes (_ConvertedSpan tool_span scenario1_derived).
Proof.
  destruct (conversion_is_stable tool_span
              (_ConvertedSpan tool_span scenario1_derived))
    as (c' & Hc' & Hattrs & _).
  - by_evaluation.
  - eauto.
Defined.

(** X11: through any number of converted spans, every accessor other than
    [attributes], and [to_json] with it, answers from the recorded span at
    the bottom; the JSON rendering therefore shows none of the derived
    attributes. *)
Theorem accessors_reach_recorded_span
    (readable_span_to_json : ReadableSpanFields → option Z → string)
    (s : span) :
  name s = _name (recorded_fields s) ∧
  context s = _context (recorded_fields s) ∧
  kind s = _kind (recorded_fields s) ∧
  parent s = _parent (recorded_fields s) ∧
  start_time s = _start_time (recorded_fields s) ∧
  end_time s = _end_time (recorded_fields s) ∧
  status s = _status (recorded_fields s) ∧
  events s = _events (recorded_fields s) ∧
  links s = _links (recorded_fields s) ∧
  resource s = _resource (recorded_fields s) ∧
  instrumentation_scope s = _instrumentation_scope (recorded_fields s) ∧
  dropped_attributes s = _dropped_attributes (recorded_fields s) ∧
  dropped_events s = _dropped_events (recorded_fields s) ∧
  dropped_links s = _dropped_links (recorded_fields s) ∧
  get_span_context s = _context (recorded_fields s) ∧
  (∀ indent, to_json readable_span_to_json s indent
             = readable_span_to_json (recorded_fields s) indent) ∧
  (∀ extra indent,
     to_json readable_span_to_json (_ConvertedSpan s extra) indent
     = to_json readable_span_to_json s indent).
Proof.
  induction s as [f|o IH m]; [by repeat split|].
  destruct IH as (?&?&?&?&?&?&?&?&?&?&?&?&?&?&?&?&?).
  by repeat split.
Qed.

(** X12: views compose: a view built over a view shows the attributes of
    the single view built from the later derived mapping laid over the
    earlier one; and a view over a span without attributes shows exactly
    the derived mapping. *)
Theorem views_compose (original : span) (extra1 extra2 : attrs) :
  attributes (_ConvertedSpan (_ConvertedSpan original extra1) extra2)
  = attributes (_ConvertedSpan original (extra2 ∪ extra1)) ∧
  (mapping_truthy (attributes original) = false →
   attributes (_ConvertedSpan original extra1) = Some extra1).
Proof.
  split.
  - rewrite !merged_attributes_of_view.
    change (default ∅ (Some ?m)) with m.
    by rewrite (assoc_L (∪)).
  - intros Hfalsy. rewrite merged_attributes_of_view.
    by rewrite (falsy_mapping_is_empty _ Hfalsy), (right_id_L ∅ (∪)).
Qed.

(** ** More on the exporter *)

Lemma convert_span_keeps_recorded_fields (s c : span) :
  _convert_span s = Ok c → recorded_fields c = recorded_fields s.
Proof.
  intros Hc.
  by destruct (convert_span_cases _ _ Hc) as [->|(?&?&?&?&?& ->)].
Qed.

Lemma name_of_recorded_fields (s : span) : name s = _name (recorded_fields s).
Proof. induction s; [done|]. by cbn. Qed.

Lemma context_of_recorded_fields (s : span) :
  context s = _context (recorded_fields s).
Proof. induction s; [done|]. by cbn. Qed.

Lemma records_of_converted (spans converted : list span) :
  convert_all spans = Ok converted → records_of converted = records_of spans.
Proof.
  intros Hc%convert_all_Forall2. unfold records_of.
  induction Hc as [|s c rest cs Hs _ IH]; [done|].
  cbn [fmap list_fmap]. rewrite IH. f_equal.
  rewrite !name_of_recorded_fields, !context_of_recorded_fields.
  by rewrite (convert_span_keeps_recorded_fields _ _ Hs).
Qed.

Lemma convert_span_raises_TypeError (s : span) (e : py_exn) :
  _convert_span s = Raise e → e = TypeError.
Proof.
  unfold _convert_span.
  destruct (negb (mapping_truthy (attributes s))); [discriminate|].
  destruct (_convert_genai_to_openinference _) as [extra|e'] eqn:Hc;
    cbn [obind].
  - by destruct (negb (mapping_truthy (Some extra))).
  - intros [= <-]. by destruct (convert_raises _ _ Hc).
Qed.

Lemma convert_span_of_unaddable (s : span) (a : attrs) :
  attributes s = Some a → ¬ tokens_addable a →
  _convert_span s = Raise TypeError.
Proof.
  intros Ha Hnot.
  destruct (_convert_span s) as [c|e] eqn:Hs.
  - exfalso. apply Hnot.
    destruct (convert_span_cases _ _ Hs)
      as [->|(a' & extra & Ha' & Hextra & _ & _)].
    + unfold _convert_span in Hs. rewrite Ha in Hs.
      destruct (mapping_truthy (Some a)) eqn:Htruthy; cbn [negb] in Hs.
      * change (default ∅ (Some a)) with a in Hs.
        apply convert_returns_iff.
        destruct (_convert_genai_to_openinference a); [eauto|discriminate].
      * assert (a = ∅) as -> by exact (falsy_mapping_is_empty _ Htruthy).
        by intros ?.
    + apply convert_returns_iff. exists extra. congruence.
  - by rewrite (convert_span_raises_TypeError _ _ Hs).
Qed.

Lemma convert_all_raises_TypeError (spans : list span) (e : py_exn) :
  convert_all spans = Raise e → e = TypeError.
Proof.
  induction spans as [|s rest IH]; [discriminate|]. cbn [convert_all].
  destruct (_convert_span s) as [c|e'] eqn:Hs; cbn [obind].
  - destruct (convert_all rest) as [cs|e']; cbn [obind]; [discriminate|].
    intros [= <-]. by apply IH.
  - intros [= <-]. by eapply convert_span_raises_TypeError.
Qed.

(** X13: when the wrapped exporter returns, be it SUCCESS or FAILURE,
    [export] has written one log record per span of the input batch, in
    batch order, with the name and the trace id of the input span; when
    the call ends in an exception, nothing is logged. *)
Theorem export_logs_every_span {S} `{SpanExporter S}
    (spans : list span) (w : world S) :
  match (export spans w).1 with
  | Ok _ => _logger (export spans w).2 = (_logger w ++ records_of spans)%list
  | Raise _ => _logger (export spans w).2 = _logger w
  end.
Proof.
  rewrite export_unfold.
  destruct (convert_all spans) as [converted|e] eqn:Hc; [|done].
  destruct (wrapped_export converted (_wrapped w)) as [[r|e] s']; [|done].
  cbn [fst snd _logger]. by rewrite (records_of_converted _ _ Hc).
Qed.

Lemma export_logs_every_span_witness :
  _logger
    (@export nat failing_exporter [tool_span; plain_span] initial_world).2
  = [ {| logged_name := "tool"; logged_trace_id := 7 |};
      {| logged_name := "plain"; logged_trace_id := 7 |} ].
Proof.
  pose proof (@export_logs_every_span nat failing_exporter
                [tool_span; plain_span] initial_world) as Hlog.
  assert ((@export nat failing_exporter [tool_span; plain_span]
             initial_world).1 = Ok FAILURE) as Hresult by by_evaluation.
  rewrite Hresult in Hlog. exact Hlog.
Defined.

(** X14: one span whose token counts cannot be added stops the whole
    batch: [export] raises [TypeError], the wrapped exporter is not
    called, nothing is logged, and the other spans of the batch are not
    exported either. *)
Theorem export_is_all_or_nothing {S} `{SpanExporter S}
    (spans : list span) (w : world S) (s : span) (a : attrs) :
  s ∈ spans → attributes s = Some a → ¬ tokens_addable a →
  export spans w = (Raise TypeError, w).
Proof.
  intros Hs Ha Hnot. rewrite export_unfold.
  destruct (convert_all spans) as [converted|e] eqn:Hc.
  - exfalso. apply convert_all_Forall2 in Hc.
    apply list_elem_of_lookup in Hs as [i Hi].
    destruct (Forall2_lookup_l _ _ _ _ _ Hc Hi) as (c & _ & Hconv).
    by rewrite (convert_span_of_unaddable _ _ Ha Hnot) in Hconv.
  - by rewrite (convert_all_raises_TypeError _ _ Hc).
Qed.

Lemma export_is_all_or_nothing_witness :
  @export nat counting_exporter [tool_span; mixed_span; plain_span]
    initial_world
  = (Raise TypeError, initial_world).
Proof.
  apply (@export_is_all_or_nothing nat counting_exporter _ _
           mixed_span mixed_counts).
  - apply list_elem_of_In. cbn [In]. tauto.
  - reflexivity.
  - intros Hadd. destruct Hadd as [total Htotal]; [by_evaluation|].
    vm_compute in Htotal. discriminate Htotal.
Defined.

Lemma convert_all_app (l1 l2 : list span) :
  convert_all (l1 ++ l2)%list =
  obind (convert_all l1) (λ c1,
  obind (convert_all l2) (λ c2, Ok (c1 ++ c2)%list)).
Proof.
  induction l1 as [|s rest IH]; cbn [convert_all app obind].
  - by destruct (convert_all l2).
  - destruct (_convert_span s); cbn [obind]; [|done]. rewrite IH.
    destruct (convert_all rest); cbn [obind]; [|done].
    by destruct (convert_all l2).
Qed.

Lemma handed_over_by_export {S} `{SpanExporter S}
    (spans out : list span) (w : world S) :
  handed_over (export spans w).2 = (handed_over w ++ [out])%list ↔
  convert_all spans = Ok out.
Proof.
  rewrite export_unfold.
  destruct (convert_all spans) as [converted|e] eqn:Hc.
  - destruct (wrapped_export converted (_wrapped w)) as [r s'].
    cbn [snd handed_over]. split.
    + by intros [= <-]%app_inv_head.
    + by intros [= <-].
  - cbn [snd]. split; [|discriminate].
    intros Hgrow. apply (f_equal length) in Hgrow.
    rewrite length_app in Hgrow. cbn [length] in Hgrow. lia.
Qed.

(** X15: translation is per span: the batch handed over for two batches
    exported together is the batch handed over for the first followed by
    the batch handed over for the second, whatever the exporters and
    their states. *)
Theorem export_of_joined_batches {S} `{SpanExporter S}
    (l1 l2 out1 out2 : list span) (w1 w2 w : world S) :
  handed_over (export l1 w1).2 = (handed_over w1 ++ [out1])%list →
  handed_over (export l2 w2).2 = (handed_over w2 ++ [out2])%list →
  handed_over (export (l1 ++ l2)%list w).2
  = (handed_over w ++ [(out1 ++ out2)%list])%list.
Proof.
  rewrite !handed_over_by_export. intros H1 H2.
  by rewrite convert_all_app, H1, H2.
Qed.

Lemma export_of_joined_batches_witness :
  handed_over
    (@export nat counting_exporter ([tool_span] ++ [plain_span])%list
       initial_world).2
  = [[_ConvertedSpan tool_span scenario1_derived; plain_span]].
Proof.
  apply (@export_of_joined_batches nat counting_exporter
           [tool_span] [plain_span]
           [_ConvertedSpan tool_span scenario1_derived] [plain_span]
           initial_world initial_world initial_world); by_evaluation.
Defined.

(** X16: what the wrapped exporter is handed differs from the input batch
    in nothing but attributes: at every index the span handed over has
    the recorded span of the input span underneath, hence its name,
    context, times, status, events, links and resource. *)
Theorem export_changes_attributes_only {S} `{SpanExporter S}
    (spans out : list span) (w : world S) (i : nat) (s : span) :
  handed_over (export spans w).2 = (handed_over w ++ [out])%list →
  spans !! i = Some s →
  ∃ c, out !! i = Some c ∧ recorded_fields c = recorded_fields s.
Proof.
  rewrite handed_over_by_export. intros Hc%convert_all_Forall2 Hi.
  destruct (Forall2_lookup_l _ _ _ _ _ Hc Hi) as (c & Hout & Hconv).
  exists c. split; [done|]. by apply convert_span_keeps_recorded_fields.
Qed.

Lemma export_changes_attributes_only_witness :
  ∃ c, [_ConvertedSpan tool_span scenario1_derived; plain_span] !! 0%nat
       = Some c ∧
       recorded_fields c = recorded_fields tool_span.
Proof.
  apply (@export_changes_attributes_only nat counting_exporter
           [tool_span; plain_span] _ initial_world 0 tool_span).
  - by_evaluation.
  - reflexivity.
Defined.

(** ** More on the processor and the setup *)

(** X17: whatever [batch] is, the policy is built around the translating
    exporter of the given exporter; the buffered policy is built exactly
    when [batch] is [True], with the extra keyword arguments as given;
    otherwise the extra keyword arguments are dropped. *)
Theorem processor_wraps_exporter_in_translation
    (exporter : exporter_obj) (batch : option bool) (processor_kwargs : attrs) :
  let processor :=
    GenAIToOpenInferenceProcessor__init__ exporter batch processor_kwargs in
  exporter_of (_processor processor) = GenAIToOpenInferenceExporter exporter ∧
  (mode_of (_processor processor) = buffered ↔ batch = Some true) ∧
  (batch = Some true →
   _processor processor
   = BatchSpanProcessor (GenAIToOpenInferenceExporter exporter) processor_kwargs) ∧
  (batch ≠ Some true →
   processor = GenAIToOpenInferenceProcessor__init__ exporter batch ∅).
Proof.
  cbv zeta. destruct batch as [[|]|]; cbn.
  - repeat split; try done.
  - repeat split; try done; discriminate.
  - repeat split; try done; discriminate.
Qed.

(** X18: the project label [setup_phoenix_tracing] uses is never empty: it
    is the given label when that is a non-empty string and ["agentscope"]
    when the label is [None] or the empty string; the resource and the
    header of the network exporter carry that same label. *)
Theorem phoenix_project_label (endpoint : string) (project_name : option string) :
  ∃ project,
    project ≠ "" ∧
    (project_name = Some project ∨
     project = "agentscope" ∧ (project_name = None ∨ project_name = Some "")) ∧
    provider_resource (setup_phoenix_tracing endpoint project_name)
    = Resource_create {[ "service.name" := project ]} ∧
    ∀ processor,
      processor ∈ _span_processors (setup_phoenix_tracing endpoint project_name) →
      exporter_of (_processor processor)
      = GenAIToOpenInferenceExporter
          (OTLPSpanExporter endpoint (Some {[ "phoenix-project-name" := project ]})).
Proof.
  exists (project_or_default project_name). split; [|split; [|split]].
  - unfold project_or_default. destruct project_name as [p|]; [|done].
    destruct (String.eqb p "") eqn:Hp; [done|]. by apply String.eqb_neq.
  - unfold project_or_default.
    destruct project_name as [p|]; [|right; split; [done|by left]].
    destruct (String.eqb p "") eqn:Hp; [|by left].
    apply String.eqb_eq in Hp as ->. right. split; [done|by right].
  - reflexivity.
  - by intros processor ->%list_elem_of_singleton.
Qed.

(** X19: [setup_tracing] keeps what is there: on a provider of the SDK it
    installs nothing, leaves the resource and the processors already
    attached as they are and in their order, and attaches one processor
    after them; without such a provider it hands a new provider holding
    that one processor to [trace.set_tracer_provider].  The processor is
    the buffered policy around the network exporter for the endpoint,
    without headers and without a translating exporter in between. *)
Theorem setup_tracing_keeps_existing_processors
    (endpoint : string) (tracer_provider : installed_provider) :
  let added :=
    PlainPolicy (BatchSpanProcessor (OTLPSpanExporter endpoint None) ∅) in
  (∀ provider, tracer_provider = SdkProvider provider →
     ∃ after, setup_tracing endpoint tracer_provider = AttachedTo after ∧
              sdk_resource after = sdk_resource provider ∧
              sdk_span_processors after
              = (sdk_span_processors provider ++ [added])%list) ∧
  (tracer_provider = OtherProvider →
     ∃ after, setup_tracing endpoint tracer_provider = SetTracerProvider after ∧
              sdk_span_processors after = [added]) ∧
  mode_of (policy_of added) = buffered ∧
  exporter_of (policy_of added) = OTLPSpanExporter endpoint None.
Proof.
  cbv zeta. split; [|split; [|done]].
  - intros provider ->. eexists. by repeat split.
  - intros ->. eexists. by repeat split.
Qed.

(** X20: [setup_tracing] is not idempotent: called [n] times while a
    provider of the SDK is installed, it attaches [n] processors to it,
    each one a buffered policy for the endpoint, behind the processors
    that were there. *)
Theorem setup_tracing_accumulates
    (endpoint : string) (provider : SdkTracerProvider) (n : nat) :
  let again p := provider_after (setup_tracing endpoint (SdkProvider p)) in
  let after := Nat.iter n again provider in
  sdk_span_processors after
  = (sdk_span_processors provider
     ++ replicate n
          (PlainPolicy (BatchSpanProcessor (OTLPSpanExporter endpoint None) ∅)))%list ∧
  sdk_resource after = sdk_resource provider ∧
  length (sdk_span_processors after)
  = (length (sdk_span_processors provider) + n)%nat.
Proof.
  cbv zeta. induction n as [|n (IHp & IHr & IHl)].
  - change (Nat.iter 0 ?f ?x) with x. cbn [replicate]. rewrite app_nil_r.
    split; [done|]. split; [done|lia].
  - rewrite Nat.iter_succ.
    set (before := Nat.iter n _ provider) in *.
    cbn [setup_tracing provider_after sdk_add_span_processor
         sdk_span_processors sdk_resource].
    rewrite IHp, IHr. split; [|split; [done|]].
    + rewrite <- app_assoc. f_equal.
      change [?x] with (replicate 1 x).
      rewrite <- replicate_add. f_equal. lia.
    + rewrite !length_app, length_replicate. cbn [length]. lia.
Qed.

(** X21: after [setup_phoenix_tracing] has installed its provider, a call
    of [setup_tracing] attaches to that provider: it then holds the
    immediate translating processor and, behind it, a buffered policy
    that exports untranslated spans. *)
Theorem setup_tracing_after_phoenix
    (phoenix_endpoint endpoint : string) (project_name : option string) :
  let installed :=
    SdkProvider
      (as_sdk_provider (setup_phoenix_tracing phoenix_endpoint project_name)) in
  ∃ after translating,
    setup_tracing endpoint installed = AttachedTo after ∧
    sdk_span_processors after
    = [ Translating translating;
        PlainPolicy (BatchSpanProcessor (OTLPSpanExporter endpoint None) ∅) ] ∧
    mode_of (_processor translating) = immediate ∧
    (∃ sink, exporter_of (_processor translating)
             = GenAIToOpenInferenceExporter sink).
Proof.
  cbv zeta. eexists. eexists. split; [reflexivity|].
  split; [reflexivity|]. split; [reflexivity|]. eexists. reflexivity.
Qed.
